(** * PN532 over UART: frame codec, transport session, dispatcher, device operations

    A shallow embedding of [pn532.py] (class [PN532Uart]) and the properties
    of its protocol engine.

    - Bytes are integers ([Z]) in [0, 256); [bytes] / [bytearray] objects are
      [list Z] satisfying [is_bytes].
    - Python exceptions are values of [exn]; a computation that may raise
      returns a [result].
    - The coroutines of [PN532Uart] thread the serial port through every
      [await]: they are functions [Uart -> result A * Uart] (monad [M]). *)

From stdpp Require Import base numbers list.

Local Open Scope Z_scope.

(** ** Exceptions and results *)

(** The exceptions the driver can raise.  Every [RuntimeError] of the source
    is told apart by its raise site (the message is given with each
    constructor); the other constructors are Python's own exceptions. *)
Inductive exn : Set :=
  | InvalidPayload          (* AssertionError: 'Data must be array of 1 to 255 bytes.' *)
  | AckMismatch             (* 'Did not receive expected ACK from PN532!' *)
  | MalformedStart          (* 'Response does not begin with _FRAME_START!' *)
  | LengthChecksumMismatch  (* 'Response length checksum did not match length!' *)
  | PayloadChecksumMismatch (* 'Response checksum did not match expected value: ' *)
  | MissingFrameEnd         (* 'Response does not include Frame End' *)
  | TruncatedResponse       (* 'Received smaller than expected frame' *)
  | UnexpectedResponse      (* 'Received unexpected command response!' *)
  | DeviceNotDetected       (* 'Failed to detect the PN532' *)
  | MultipleCardsDetected   (* 'More than one card detected!' *)
  | UidTooLong              (* 'Found card with unexpectedly long UID!' *)
  | IndexError              (* subscript out of range *)
  | ValueError              (* byte must be in range(0, 256) *)
  | FuelExhausted.          (* a [while] loop of the model ran out of fuel *)

#[global] Instance exn_eq_dec : EqDecision exn.
Proof. solve_decision. Defined.

Inductive result (A : Type) : Type :=
  | Ok (a : A)
  | Err (e : exn).
Arguments Ok {A} a.
Arguments Err {A} e.

Definition rbind {A B} (r : result A) (k : A -> result B) : result B :=
  match r with
  | Ok a => k a
  | Err e => Err e
  end.

Notation "'let*' x ':=' r 'in' k" := (rbind r (fun x => k))
  (at level 10, x pattern, r at level 100, k at level 200).

(** ** The fragment of Python the driver uses *)

Definition is_byte (b : Z) : Prop := 0 <= b < 256.
Definition is_bytes (l : list Z) : Prop := Forall is_byte l.

#[global] Instance is_byte_dec b : Decision (is_byte b).
Proof. unfold is_byte. apply _. Defined.
#[global] Instance is_bytes_dec l : Decision (is_bytes l).
Proof. unfold is_bytes. apply _. Defined.

Module Py.

(** [len(l)] *)
Definition len (l : list Z) : Z := Z.of_nat (length l).

(** [sum(l)] *)
Definition sum (l : list Z) : Z := foldr Z.add 0 l.

(** [bytearray(n)]: [n] zero bytes. *)
Definition bytearray (n : Z) : list Z := replicate (Z.to_nat n) 0.

(** A subscript [i] of [l]: a negative one counts from the end; outside
    the sequence there is no position. *)
Definition position (l : list Z) (i : Z) : option nat :=
  let j := if i <? 0 then i + len l else i in
  if (0 <=? j) && (j <? len l) then Some (Z.to_nat j) else None.

(** [l[i]] *)
Definition getitem (l : list Z) (i : Z) : result Z :=
  match position l i with
  | Some j => match l !! j with Some b => Ok b | None => Err IndexError end
  | None => Err IndexError
  end.

(** [l[i] = v] on a bytearray: a value outside [range(256)] is refused with
    [ValueError].  The statements below that depend on what was stored take
    byte arguments. *)
Definition setitem (l : list Z) (i : Z) (v : Z) : result (list Z) :=
  match position l i with
  | Some j => if decide (is_byte v) then Ok (<[j := v]> l) else Err ValueError
  | None => Err IndexError
  end.

(** A slice bound: a negative one counts from the end, then it is clipped
    to [0, len(l)]. *)
Definition bound (l : list Z) (i : Z) : nat :=
  let j := if i <? 0 then i + len l else i in
  Z.to_nat (Z.min (Z.max j 0) (len l)).

(** [l[lo:hi]] *)
Definition slice (l : list Z) (lo hi : Z) : list Z :=
  take (bound l hi - bound l lo) (drop (bound l lo) l).

(** [l[lo:]] *)
Definition slice_from (l : list Z) (lo : Z) : list Z :=
  drop (bound l lo) l.

(** [l[:hi]] *)
Definition slice_to (l : list Z) (hi : Z) : list Z :=
  take (bound l hi) l.

(** [l[lo:hi] = new] on a bytearray, for [new] a [bytes] or [bytearray]
    object (values in [range(256)], as [data] is wherever the driver calls
    [_write_frame]): the slice is replaced, the bytearray grows or shrinks by
    the difference of the lengths.  Values outside [range(256)], which Python
    refuses with [ValueError], are outside this definition. *)
Definition slice_assign (l : list Z) (lo hi : Z) (new : list Z) : list Z :=
  take (bound l lo) l ++ new ++ drop (Nat.max (bound l lo) (bound l hi)) l.

End Py.

(** ** Constants of the module *)

Definition _WAKEUP : list Z := [0x55; 0x55; 0; 0; 0; 0; 0; 0; 0; 0; 0; 0; 0; 0].
Definition _COMMAND_GETFIRMWAREVERSION : Z := 0x02.
Definition _COMMAND_INLISTPASSIVETARGET : Z := 0x4A.
Definition _COMMAND_INRELEASE : Z := 0x52.
Definition _COMMAND_SAMCONFIGURATION : Z := 0x14.

Definition _PREAMBLE : Z := 0x00.
Definition _STARTCODE1 : Z := 0x00.
Definition _STARTCODE2 : Z := 0xFF.
Definition _POSTAMBLE : Z := 0x00.

Definition _HOSTTOPN532 : Z := 0xD4.
Definition _PN532TOHOST : Z := 0xD5.
Definition _ACK : list Z := [0x00; 0x00; 0xFF; 0x00; 0xFF; 0x00].
Definition _FRAME_START : list Z := [0x00; 0x00; 0xFF].

Definition _MIFARE_ISO14443A : Z := 0x00.

(** ** The serial port *)

(** What the driver did on the port, in order. *)
Inductive event : Set :=
  | Written (buf : list Z)               (* swriter.awrite(buf) *)
  | Discarded (buf : list Z)             (* uart.read(n), result dropped *)
  | StreamRead (n : Z) (got : list Z).   (* await sreader.read(n) *)

(** [machine.UART] with its [StreamWriter] and [StreamReader] is not part of
    the driver.  The port is the bytes waiting unread in the receive buffer
    ([rxbuf]), the bytes the device is still to deliver ([line]) and the
    trace of the driver's calls.  [uart.any()] and [uart.read(n)] see the
    buffer only; [await sreader.read(n)] suspends until [n] bytes have come
    in, and is short only when the device delivers no more. *)
Record Uart : Type := mkUart {
  rxbuf : list Z;
  line : list Z;
  trace : list event
}.

Definition M (A : Type) : Type := Uart -> result A * Uart.

Definition ret {A} (a : A) : M A := fun u => (Ok a, u).
Definition raise {A} (e : exn) : M A := fun u => (Err e, u).
Definition bind {A B} (m : M A) (k : A -> M B) : M B :=
  fun u =>
    match m u with
    | (Ok a, u') => k a u'
    | (Err e, u') => (Err e, u')
    end.
Definition lift {A} (r : result A) : M A := fun u => (r, u).

Notation "x <- m ;; k" := (bind m (fun x => k))
  (at level 100, m at next level, right associativity).
Notation "m ;;; k" := (bind m (fun _ => k))
  (at level 100, right associativity).

Definition log (e : event) (u : Uart) : Uart :=
  mkUart (rxbuf u) (line u) (trace u ++ [e]).

(** [await self.swriter.awrite(buf)] *)
Definition swriter_awrite (buf : list Z) : M unit :=
  fun u => (Ok tt, log (Written buf) u).

(** [await self.swriter.drain()] *)
Definition swriter_drain : M unit := ret tt.

(** [self.uart.any()] *)
Definition uart_any : M Z := fun u => (Ok (Py.len (rxbuf u)), u).

(** [self.uart.read(n)] *)
Definition uart_read (n : Z) : M (list Z) :=
  fun u =>
    let got := take (Z.to_nat n) (rxbuf u) in
    (Ok got, log (Discarded got) (mkUart (drop (Z.to_nat n) (rxbuf u)) (line u) (trace u))).

(** [await self.sreader.read(n)] *)
Definition sreader_read (n : Z) : M (list Z) :=
  fun u =>
    let k := Z.to_nat n in
    let got := take k (rxbuf u ++ line u) in
    (Ok got,
     log (StreamRead n got)
         (mkUart (drop k (rxbuf u)) (drop (k - length (rxbuf u)) (line u)) (trace u))).

(** ** The driver ([class PN532Uart])

    The [debug] prints do not change what the methods do and are left out. *)

(** [_write_frame], lines 47-68: the assertion on [data] and the frame built
    in memory, before any byte goes to the port.  This is the [encode] of the
    frame codec. *)
Definition encode (data : list Z) : result (list Z) :=
  if negb ((1 <? Py.len data) && (Py.len data <? 255)) then Err InvalidPayload else
  let length := Py.len data in
  let frame := Py.bytearray (length + 8) in
  let* frame := Py.setitem frame 0 _PREAMBLE in
  let* frame := Py.setitem frame 1 _STARTCODE1 in
  let* frame := Py.setitem frame 2 _STARTCODE2 in
  let checksum := Py.sum (Py.slice frame 0 3) in
  let* frame := Py.setitem frame 3 (Z.land length 0xFF) in
  let* frame := Py.setitem frame 4 (Z.land (Z.lnot length + 1) 0xFF) in
  let frame := Py.slice_assign frame 5 (-2) data in
  let checksum := checksum + Py.sum data in
  let* frame := Py.setitem frame (-2) (Z.land (Z.lnot checksum) 0xFF) in
  let* frame := Py.setitem frame (-1) _POSTAMBLE in
  Ok frame.

(** [_write_frame], lines 80-85: the loop that empties the receive buffer.
    [fuel] bounds the number of turns; [flush_buffer_total] shows that the
    fuel [_write_frame] gives it is never used up. *)
Fixpoint flush_buffer (fuel : nat) (waiting : Z) : M unit :=
  if 0 <? waiting then
    match fuel with
    | O => raise FuelExhausted
    | S fuel' =>
        uart_read waiting ;;;
        waiting' <- uart_any ;;
        flush_buffer fuel' waiting'
    end
  else ret tt.

Definition _write_frame (data : list Z) : M unit :=
  frame <- lift (encode data) ;;
  swriter_awrite _WAKEUP ;;;
  waiting <- uart_any ;;
  (fun u => flush_buffer (S (length (rxbuf u))) waiting u) ;;;
  swriter_awrite frame ;;;
  swriter_drain ;;;
  ack <- sreader_read (Py.len _ACK) ;;
  if bool_decide (ack ≠ _ACK) then raise AckMismatch else ret tt.

Definition _read_frame : M (list Z) :=
  response <- sreader_read (Py.len _FRAME_START + 2) ;;
  if (Py.len response <? Py.len _FRAME_START + 2)
     || bool_decide (Py.slice_to response (-2) ≠ _FRAME_START)
  then raise MalformedStart else
  frame_len <- lift (Py.getitem response (-2)) ;;
  frame_checksum <- lift (Py.getitem response (-1)) ;;
  if negb (Z.land (frame_len + frame_checksum) 0xFF =? 0)
  then raise LengthChecksumMismatch else
  data <- sreader_read (frame_len + 2) ;;
  let checksum := Z.land (Py.sum data) 0xFF in
  if negb (checksum =? 0) then raise PayloadChecksumMismatch else
  frame_end <- lift (Py.getitem data (-1)) ;;
  if negb (frame_end =? 0x00) then raise MissingFrameEnd else
  ret (Py.slice data 0 frame_len).

(** A port on which nothing is buffered and nothing was done yet, and on
    which the device will deliver [incoming]. *)
Definition fresh_port (incoming : list Z) : Uart := mkUart [] incoming [].

(** The [decode] of the frame codec: [_read_frame] on a port that delivers
    the raw frame and nothing else. *)
Definition decode (raw : list Z) : result (list Z) :=
  fst (_read_frame (fresh_port raw)).

(** [call_function], lines 138-139: [for i, val in enumerate(params)]. *)
Fixpoint store_params (data : list Z) (i : Z) (params : list Z) : result (list Z) :=
  match params with
  | [] => Ok data
  | val :: params' =>
      let* data := Py.setitem data (2 + i) val in
      store_params data (i + 1) params'
  end.

(** [call_function], lines 135-139: the command payload. *)
Definition command_payload (command : Z) (params : list Z) : result (list Z) :=
  let data := Py.bytearray (2 + Py.len params) in
  let* data := Py.setitem data 0 _HOSTTOPN532 in
  let* data := Py.setitem data 1 (Z.land command 0xFF) in
  store_params data 0 params.

Definition call_function (command : Z) (params : list Z) : M (list Z) :=
  data <- lift (command_payload command params) ;;
  _write_frame data ;;;
  response <- _read_frame ;;
  if Py.len response <? 2 then raise TruncatedResponse else
  marker <- lift (Py.getitem response 0) ;;
  code <- lift (Py.getitem response 1) ;;
  if negb ((marker =? _PN532TOHOST) && (code =? command + 1))
  then raise UnexpectedResponse else
  ret (Py.slice_from response 2).

Definition SAM_configuration : M unit :=
  response <- call_function _COMMAND_SAMCONFIGURATION [0x01; 0x14; 0x01] ;;
  ret tt.

(** [call_function] returns a [bytes] object or raises: the [response] that
    [get_firmware_version] tests against [None] is always [Some].  The tuple
    it returns is the list of the response's bytes. *)
Definition get_firmware_version : M (list Z) :=
  response <- (r <- call_function _COMMAND_GETFIRMWAREVERSION [] ;; ret (Some r)) ;;
  match response with
  | None => raise DeviceNotDetected
  | Some response => ret response
  end.

Definition read_passive_target (card_baud : Z) : M (list Z) :=
  response <- call_function _COMMAND_INLISTPASSIVETARGET [0x01; card_baud] ;;
  count <- lift (Py.getitem response 0) ;;
  if negb (count =? 0x01) then raise MultipleCardsDetected else
  uid_len <- lift (Py.getitem response 5) ;;
  if 7 <? uid_len then raise UidTooLong else
  uid_len' <- lift (Py.getitem response 5) ;;
  ret (Py.slice response 6 (6 + uid_len')).

Definition release_targets : M unit :=
  response <- call_function _COMMAND_INRELEASE [0x00] ;;
  ret tt.

(** ** Reference definitions for the statements *)

(** The frame as the data model describes it: preamble, start code, length,
    length checksum [(-length) mod 256], payload, payload checksum (the sum of
    the payload and the checksum is [0 mod 256]), postamble. *)
Definition frame_layout (payload : list Z) : list Z :=
  [_PREAMBLE; _STARTCODE1; _STARTCODE2; Py.len payload; (- Py.len payload) mod 256]
  ++ payload ++ [(- Py.sum payload) mod 256; _POSTAMBLE].

(** The port once [_write_frame] has emptied the receive buffer. *)
Definition flushed (u : Uart) : Uart :=
  match rxbuf u with
  | [] => u
  | _ :: _ => mkUart [] (line u) (trace u ++ [Discarded (rxbuf u)])
  end.

(** Encoding a payload and decoding the frame that results. *)
Definition roundtrip (payload : list Z) : result (list Z) :=
  let* raw := encode payload in decode raw.

(** The exceptions a coroutine can end with are all in [E]. *)
Definition only_raises {A} (E : exn -> Prop) (m : M A) : Prop :=
  forall u e, fst (m u) = Err e -> E e.

(** The exceptions of the transport and of the response check. *)
Definition exchange_errors : list exn :=
  [FuelExhausted; AckMismatch; MalformedStart; LengthChecksumMismatch;
   PayloadChecksumMismatch; IndexError; MissingFrameEnd; TruncatedResponse;
   UnexpectedResponse].

(** The port once [_write_frame] has sent [frame] and read the
    acknowledgement: wake-up written, buffer emptied, frame written, six
    bytes read from the line. *)
Definition port_after_write (frame : list Z) (u : Uart) : Uart :=
  let u' := log (Written frame) (flushed (log (Written _WAKEUP) u)) in
  log (StreamRead 6 (take 6 (line u))) (mkUart [] (drop 6 (line u)) (trace u')).

(** The stream reads of a trace, in order: the size asked for and the bytes
    returned. *)
Fixpoint stream_reads (t : list event) : list (Z * list Z) :=
  match t with
  | [] => []
  | StreamRead n got :: t' => (n, got) :: stream_reads t'
  | _ :: t' => stream_reads t'
  end.

(** The frames and sequences written on the port, in order. *)
Fixpoint writes (t : list event) : list (list Z) :=
  match t with
  | [] => []
  | Written buf :: t' => buf :: writes t'
  | _ :: t' => writes t'
  end.

(** Two ports hold the same unread bytes and are to receive the same bytes. *)
Definition same_wire (u u' : Uart) : Prop :=
  rxbuf u = rxbuf u' /\ line u = line u'.

(** Two ports are to receive the same bytes from the device. *)
Definition same_line (u u' : Uart) : Prop := line u = line u'.

(** On ports related by [R] the coroutine ends the same way, and when it
    returns it leaves ports related by [Q]. *)
Definition agree {A} (R Q : Uart -> Uart -> Prop) (m : M A) : Prop :=
  forall u u', R u u' ->
    fst (m u) = fst (m u') /\
    (forall a, fst (m u) = Ok a -> Q (snd (m u)) (snd (m u'))).

(** The coroutine writes nothing on the port. *)
Definition keeps_writes {A} (m : M A) : Prop :=
  forall u, writes (trace (snd (m u))) = writes (trace u).

(** ** Facts about the Python fragment *)

Section PyFacts.

Implicit Types (l data : list Z) (i v : Z).

Lemma len_nonneg l : 0 <= Py.len l.
Proof. unfold Py.len. lia. Qed.

Lemma len_app l1 l2 : Py.len (l1 ++ l2) = Py.len l1 + Py.len l2.
Proof. unfold Py.len. rewrite length_app. lia. Qed.

Lemma sum_app l1 l2 : Py.sum (l1 ++ l2) = Py.sum l1 + Py.sum l2.
Proof.
  induction l1 as [|b l1 IH]; simpl; [reflexivity|].
  fold (Py.sum (l1 ++ l2)) (Py.sum l1). lia.
Qed.

Lemma position_nonneg l i :
  0 <= i < Py.len l -> Py.position l i = Some (Z.to_nat i).
Proof.
  intros Hi. unfold Py.position.
  replace (i <? 0) with false by lia.
  replace (0 <=? i) with true by lia.
  replace (i <? Py.len l) with true by lia. reflexivity.
Qed.

Lemma position_neg l i :
  - Py.len l <= i < 0 -> Py.position l i = Some (Z.to_nat (i + Py.len l)).
Proof.
  intros Hi. unfold Py.position.
  replace (i <? 0) with true by lia.
  replace (0 <=? i + Py.len l) with true by lia.
  replace (i + Py.len l <? Py.len l) with true by lia. reflexivity.
Qed.

Lemma position_empty i : Py.position [] i = None.
Proof.
  unfold Py.position, Py.len. simpl length. change (Z.of_nat 0) with 0.
  destruct (Z.ltb_spec i 0) as [Hi|Hi].
  - destruct (Z.leb_spec 0 (i + 0)); [lia | reflexivity].
  - apply Z.ltb_ge in Hi. rewrite Hi. rewrite andb_false_r. reflexivity.
Qed.

Lemma position_above l i : Py.len l <= i -> Py.position l i = None.
Proof.
  intros Hi. pose proof (len_nonneg l). unfold Py.position.
  replace (i <? 0) with false by lia.
  replace (i <? Py.len l) with false by lia. rewrite andb_false_r. reflexivity.
Qed.

Lemma setitem_nonneg l i v :
  0 <= i < Py.len l -> is_byte v ->
  Py.setitem l i v = Ok (<[Z.to_nat i := v]> l).
Proof.
  intros Hi Hv. unfold Py.setitem. rewrite position_nonneg by assumption.
  rewrite decide_True by assumption. reflexivity.
Qed.

Lemma setitem_neg l i v :
  - Py.len l <= i < 0 -> is_byte v ->
  Py.setitem l i v = Ok (<[Z.to_nat (i + Py.len l) := v]> l).
Proof.
  intros Hi Hv. unfold Py.setitem. rewrite position_neg by assumption.
  rewrite decide_True by assumption. reflexivity.
Qed.

Lemma getitem_nonneg l i b :
  0 <= i -> l !! Z.to_nat i = Some b -> Py.getitem l i = Ok b.
Proof.
  intros Hi Hb. unfold Py.getitem.
  pose proof (lookup_lt_Some _ _ _ Hb) as Hlt.
  rewrite position_nonneg by (unfold Py.len; lia).
  rewrite Hb. reflexivity.
Qed.

Lemma getitem_neg l i b :
  i < 0 -> 0 <= i + Py.len l -> l !! Z.to_nat (i + Py.len l) = Some b ->
  Py.getitem l i = Ok b.
Proof.
  intros Hi Hj Hb. unfold Py.getitem.
  rewrite position_neg by lia. rewrite Hb. reflexivity.
Qed.

Lemma getitem_empty i : Py.getitem [] i = Err IndexError.
Proof. unfold Py.getitem. rewrite position_empty. reflexivity. Qed.

Lemma getitem_above l i : Py.len l <= i -> Py.getitem l i = Err IndexError.
Proof. intros Hi. unfold Py.getitem. rewrite position_above by assumption. reflexivity. Qed.

Lemma bound_nonneg l i : 0 <= i -> Py.bound l i = Nat.min (Z.to_nat i) (length l).
Proof.
  intros Hi. unfold Py.bound, Py.len.
  replace (i <? 0) with false by lia. lia.
Qed.

Lemma bound_neg l i :
  i < 0 -> Py.bound l i = (length l - Z.to_nat (- i))%nat.
Proof.
  intros Hi. unfold Py.bound, Py.len.
  replace (i <? 0) with true by lia. lia.
Qed.

Lemma slice_0 l hi : 0 <= hi -> Py.slice l 0 hi = take (Z.to_nat hi) l.
Proof.
  intros Hhi. unfold Py.slice. rewrite !bound_nonneg by lia.
  simpl. rewrite Nat.sub_0_r, drop_0.
  destruct (decide (Z.to_nat hi <= length l)%nat).
  - rewrite Nat.min_l by assumption. reflexivity.
  - rewrite Nat.min_r by lia. rewrite !take_ge by lia. reflexivity.
Qed.

Lemma slice_from_nonneg l lo : 0 <= lo -> Py.slice_from l lo = drop (Z.to_nat lo) l.
Proof.
  intros Hlo. unfold Py.slice_from. rewrite bound_nonneg by lia.
  destruct (decide (Z.to_nat lo <= length l)%nat).
  - rewrite Nat.min_l by assumption. reflexivity.
  - rewrite Nat.min_r by lia. rewrite !drop_ge by lia. reflexivity.
Qed.

Lemma slice_nonneg l lo n :
  0 <= lo -> 0 <= n ->
  Py.slice l lo (lo + n) = take (Z.to_nat n) (drop (Z.to_nat lo) l).
Proof.
  intros Hlo Hn. unfold Py.slice. rewrite !bound_nonneg by lia.
  destruct (decide (Z.to_nat lo <= length l)%nat) as [Hle|Hgt].
  - rewrite (Nat.min_l (Z.to_nat lo)) by assumption.
    destruct (decide (Z.to_nat (lo + n) <= length l)%nat).
    + rewrite Nat.min_l by assumption. f_equal. lia.
    + rewrite Nat.min_r by lia.
      rewrite !take_ge; [reflexivity | rewrite length_drop; lia | rewrite length_drop; lia].
  - rewrite !drop_ge by lia. rewrite !take_nil. reflexivity.
Qed.

End PyFacts.

(** ** The frame codec *)

Example encode_example :
  encode [0xD4; 0x02] = Ok [0x00; 0x00; 0xFF; 0x02; 0xFE; 0xD4; 0x02; 0x2A; 0x00].
Proof. reflexivity. Qed.

Example firmware_example :
  fst (get_firmware_version
         (fresh_port (_ACK ++ [0x00; 0x00; 0xFF; 0x06; 0xFA; 0xD5; 0x03; 0x32; 0x01; 0x06; 0x07; 0xE8; 0x00])))
  = Ok [0x32; 0x01; 0x06; 0x07].
Proof. reflexivity. Qed.

Lemma land_255 x : Z.land x 0xFF = x mod 256.
Proof. change 0xFF with (Z.ones 8). rewrite Z.land_ones by lia. reflexivity. Qed.

Lemma land_255_byte x : is_byte (Z.land x 0xFF).
Proof. rewrite land_255. unfold is_byte. apply Z.mod_pos_bound. lia. Qed.

Ltac solve_len :=
  unfold Py.len in *; simpl length in *;
  repeat (rewrite ?length_app, ?length_insert, ?length_replicate; simpl length);
  lia.

Ltac solve_byte :=
  first [ apply land_255_byte
        | unfold is_byte, _PREAMBLE, _STARTCODE1, _STARTCODE2, _POSTAMBLE, _HOSTTOPN532; lia ].

Lemma setitem_last2 pre a b v :
  is_byte v -> Py.setitem (pre ++ [a; b]) (-2) v = Ok (pre ++ [v; b]).
Proof.
  intros Hv. rewrite setitem_neg by first [solve_len | assumption].
  replace (Z.to_nat (-2 + Py.len (pre ++ [a; b]))) with (length pre + 0)%nat by solve_len.
  rewrite insert_app_r. reflexivity.
Qed.

Lemma setitem_last1 pre a b v :
  is_byte v -> Py.setitem (pre ++ [a; b]) (-1) v = Ok (pre ++ [a; v]).
Proof.
  intros Hv. rewrite setitem_neg by first [solve_len | assumption].
  replace (Z.to_nat (-1 + Py.len (pre ++ [a; b]))) with (length pre + 1)%nat by solve_len.
  rewrite insert_app_r. reflexivity.
Qed.

Lemma encode_layout data :
  1 < Py.len data < 255 -> encode data = Ok (frame_layout data).
Proof.
  intros Hlen. unfold encode.
  replace (1 <? Py.len data) with true by lia.
  replace (Py.len data <? 255) with true by lia. simpl negb. cbv iota.
  unfold Py.bytearray.
  replace (Z.to_nat (Py.len data + 8)) with (5 + (length data + 3))%nat
    by (unfold Py.len; lia).
  simpl replicate.
  do 3 (rewrite setitem_nonneg by first [solve_len | solve_byte]; simpl rbind).
  rewrite slice_0 by lia. simpl take.
  do 2 (rewrite setitem_nonneg by first [solve_len | solve_byte]; simpl rbind).
  unfold Py.slice_assign.
  rewrite bound_nonneg by lia. rewrite bound_neg by lia.
  simpl length. rewrite length_replicate.
  replace (Z.to_nat 5 `min` S (S (S (S (S (length data + 3))))))%nat with 5%nat by lia.
  replace (5 `max` (S (S (S (S (S (length data + 3))))) - Z.to_nat (- -2)))%nat
    with (5 + (length data + 1))%nat by lia.
  simpl take. simpl drop. rewrite take_0, drop_replicate.
  replace (length data + 3 - (length data + 1))%nat with 2%nat by lia.
  simpl replicate.
  match goal with |- context [Py.setitem (?h ++ data ++ [0; 0]) _ _] =>
    rewrite (app_assoc h data [0; 0]) end.
  rewrite setitem_last2 by solve_byte. cbv beta iota delta [rbind].
  rewrite setitem_last1 by solve_byte.
  unfold frame_layout. rewrite <- app_assoc. simpl app.
  rewrite !land_255.
  replace (Py.len data `mod` 256) with (Py.len data) by (symmetry; apply Z.mod_small; lia).
  replace (Z.lnot (Py.len data) + 1) with (- Py.len data) by (unfold Z.lnot; lia).
  replace (Z.lnot (_PREAMBLE + (_STARTCODE1 + (_STARTCODE2 + 0)) + Py.sum data))
    with (- Py.sum data + (-1) * 256)
    by (unfold Z.lnot, _PREAMBLE, _STARTCODE1, _STARTCODE2; lia).
  rewrite Z.mod_add by lia. reflexivity.
Qed.

(** ** The transport session *)

Lemma flush_buffer_total u :
  flush_buffer (S (length (rxbuf u))) (Py.len (rxbuf u)) u = (Ok tt, flushed u).
Proof.
  destruct u as [rx ln tr]. unfold flushed. simpl rxbuf.
  destruct rx as [|b rx]; [reflexivity|].
  cbn [flush_buffer]. rewrite (proj2 (Z.ltb_lt _ _)) by solve_len.
  unfold bind, uart_read, uart_any, log. cbn [rxbuf line trace].
  replace (Z.to_nat (Py.len (b :: rx))) with (length (b :: rx)) by solve_len.
  rewrite firstn_all, drop_all. 
  destruct (length rx); reflexivity.
Qed.

Lemma write_frame_run data frame u :
  encode data = Ok frame ->
  _write_frame data u =
    (if bool_decide (take 6 (line u) ≠ _ACK) then Err AckMismatch else Ok tt,
     port_after_write frame u).
Proof.
  intros Henc. unfold _write_frame. unfold bind at 1. unfold lift. rewrite Henc.
  unfold bind at 1. unfold swriter_awrite at 1.
  unfold bind at 1. unfold uart_any at 1.
  unfold bind at 1. cbn [rxbuf log].
  change (rxbuf u) with (rxbuf (log (Written _WAKEUP) u)).
  rewrite flush_buffer_total.
  unfold port_after_write.
  set (u1 := flushed (log (Written _WAKEUP) u)).
  assert (Hrx : rxbuf u1 = []).
  { unfold u1. destruct u as [[|b rx] ln tr]; reflexivity. }
  assert (Hln : line u1 = line u).
  { unfold u1. destruct u as [[|b rx] ln tr]; reflexivity. }
  unfold bind, swriter_awrite, swriter_drain, ret, sreader_read, raise, log.
  cbn [rxbuf line trace]. rewrite Hrx, Hln. cbn [app length drop].
  rewrite Nat.sub_0_r.
  change (Z.to_nat (Py.len _ACK)) with 6%nat. change (Py.len _ACK) with 6.
  destruct (bool_decide (take 6 (line u) ≠ _ACK)); reflexivity.
Qed.

Lemma read_frame_run fl fc body tr :
  let u := mkUart [] (_FRAME_START ++ [fl; fc] ++ body) tr in
  let u1 := log (StreamRead 5 (_FRAME_START ++ [fl; fc])) (mkUart [] body tr) in
  let data := take (Z.to_nat (fl + 2)) body in
  let u2 := log (StreamRead (fl + 2) data)
                (mkUart [] (drop (Z.to_nat (fl + 2)) body) (trace u1)) in
  _read_frame u =
    if negb (Z.land (fl + fc) 0xFF =? 0) then (Err LengthChecksumMismatch, u1)
    else if negb (Z.land (Py.sum data) 0xFF =? 0) then (Err PayloadChecksumMismatch, u2)
    else match Py.getitem data (-1) with
         | Err e => (Err e, u2)
         | Ok frame_end =>
             if negb (frame_end =? 0) then (Err MissingFrameEnd, u2)
             else (Ok (Py.slice data 0 fl), u2)
         end.
Proof.
  intros u u1 data u2. unfold _read_frame.
  unfold bind at 1. unfold sreader_read at 1. cbn [rxbuf line trace app].
  change (Z.to_nat (Py.len _FRAME_START + 2)) with 5%nat.
  change (Py.len _FRAME_START + 2) with 5.
  subst u. cbn [rxbuf line trace take _FRAME_START app length drop Nat.sub].
  change (take 0 body) with (@nil Z). change (drop 0 body) with body.
  replace (Py.len [0; 0; 255; fl; fc] <? 5) with false by reflexivity.
  replace (bool_decide (Py.slice_to [0; 0; 255; fl; fc] (-2) ≠ [0; 0; 255])) with false
    by reflexivity.
  cbn [orb].
  replace (Py.getitem [0; 0; 255; fl; fc] (-2)) with (Ok fl) by reflexivity.
  replace (Py.getitem [0; 0; 255; fl; fc] (-1)) with (Ok fc) by reflexivity.
  unfold bind at 1. unfold lift at 1. unfold bind at 1. unfold lift at 1.
  subst u1 u2 data. unfold log. cbn [rxbuf line trace app _FRAME_START].
  destruct (negb (Z.land (fl + fc) 255 =? 0)); [reflexivity|].
  unfold bind at 1. unfold sreader_read at 1. unfold log.
  cbn [rxbuf line trace app length]. rewrite Nat.sub_0_r, drop_nil.
  destruct (negb (Z.land (Py.sum (take (Z.to_nat (fl + 2)) body)) 255 =? 0)); [reflexivity|].
  unfold bind at 1. unfold lift at 1.
  destruct (Py.getitem (take (Z.to_nat (fl + 2)) body) (-1)) as [frame_end|e]; [|reflexivity].
  destruct (negb (frame_end =? 0)); reflexivity.
Qed.

Lemma decode_run fl fc body :
  let data := take (Z.to_nat (fl + 2)) body in
  decode (_FRAME_START ++ [fl; fc] ++ body) =
    if negb (Z.land (fl + fc) 0xFF =? 0) then Err LengthChecksumMismatch
    else if negb (Z.land (Py.sum data) 0xFF =? 0) then Err PayloadChecksumMismatch
    else match Py.getitem data (-1) with
         | Err e => Err e
         | Ok frame_end =>
             if negb (frame_end =? 0) then Err MissingFrameEnd
             else Ok (Py.slice data 0 fl)
         end.
Proof.
  intros data. unfold decode, fresh_port. rewrite read_frame_run. fold data.
  destruct (negb (Z.land (fl + fc) 255 =? 0)); [reflexivity|].
  destruct (negb (Z.land (Py.sum data) 255 =? 0)); [reflexivity|].
  destruct (Py.getitem data (-1)) as [frame_end|e]; [|reflexivity].
  destruct (negb (frame_end =? 0)); reflexivity.
Qed.

Lemma getitem_last pre b : Py.getitem (pre ++ [b]) (-1) = Ok b.
Proof.
  apply getitem_neg; [lia | solve_len |].
  replace (Z.to_nat (-1 + Py.len (pre ++ [b]))) with (length pre + 0)%nat by solve_len.
  rewrite lookup_app_r by lia. replace (length pre + 0 - length pre)%nat with 0%nat by lia.
  reflexivity.
Qed.

Lemma decode_layout data :
  Py.len data < 256 -> decode (frame_layout data) = Ok data.
Proof.
  intros Hlen. pose proof (len_nonneg data) as Hpos.
  unfold frame_layout.
  change ([_PREAMBLE; _STARTCODE1; _STARTCODE2; Py.len data; (- Py.len data) mod 256]
          ++ data ++ [(- Py.sum data) mod 256; _POSTAMBLE])
    with (_FRAME_START ++ [Py.len data; (- Py.len data) mod 256]
          ++ (data ++ [(- Py.sum data) mod 256; _POSTAMBLE])).
  rewrite decode_run.
  rewrite take_ge by (rewrite length_app; simpl; unfold Py.len; lia).
  rewrite !land_255.
  rewrite Z.add_mod_idemp_r by lia. replace (Py.len data + - Py.len data) with 0 by lia.
  change (negb (0 mod 256 =? 0)) with false. cbv iota.
  rewrite sum_app. change (Py.sum [(- Py.sum data) mod 256; _POSTAMBLE])
    with ((- Py.sum data) mod 256 + (0 + 0)).
  rewrite Z.add_0_r, Z.add_mod_idemp_r by lia.
  replace (Py.sum data + - Py.sum data) with 0 by lia.
  change (negb (0 mod 256 =? 0)) with false. cbv iota.
  set (c := (- Py.sum data) mod 256).
  replace (data ++ [c; _POSTAMBLE]) with ((data ++ [c]) ++ [_POSTAMBLE])
    by (rewrite <- app_assoc; reflexivity).
  rewrite getitem_last.
  change (negb (_POSTAMBLE =? 0)) with false. cbv iota.
  rewrite slice_0 by lia. unfold Py.len. rewrite Nat2Z.id.
  rewrite <- !app_assoc. rewrite take_app_length. reflexivity.
Qed.

Lemma encode_rejects data :
  ~ (1 < Py.len data < 255) -> encode data = Err InvalidPayload.
Proof.
  intros Hlen. unfold encode.
  destruct (Z.ltb_spec 1 (Py.len data)); [|reflexivity].
  destruct (Z.ltb_spec (Py.len data) 255); [lia|reflexivity].
Qed.

Lemma encode_invalid_payload_iff data :
  encode data = Err InvalidPayload <-> ~ (1 < Py.len data < 255).
Proof.
  split; [|apply encode_rejects].
  intros Henc Hlen. rewrite encode_layout in Henc by assumption. discriminate.
Qed.

(** X23: for every payload of 2 to 254 bytes, decoding the frame that
    [_write_frame] builds for it succeeds and gives the payload back. *)
Theorem roundtrip_accepted (payload : list Z) :
  is_bytes payload ->
  1 < Py.len payload < 255 -> roundtrip payload = Ok payload.
Proof.
  intros _ Hlen. unfold roundtrip. rewrite encode_layout by assumption.
  cbn [rbind]. apply decode_layout. lia.
Qed.

Lemma roundtrip_accepted_witness :
  roundtrip [0xD4; 0x4A; 0x01; 0x00] = Ok [0xD4; 0x4A; 0x01; 0x00].
Proof.
  apply roundtrip_accepted.
  - unfold is_bytes. repeat constructor; discriminate.
  - split; reflexivity.
Defined.

(** C1, at the failing input: a payload of one byte does not pass the
    assertion of [_write_frame] ([1 < len(data) < 255], against its message
    'Data must be array of 1 to 255 bytes.'), so no frame is built and the
    round trip ends with the assertion error instead of the payload. *)
Theorem roundtrip_one_byte (b : Z) :
  Py.len [b] = 1 /\
  roundtrip [b] = Err InvalidPayload /\
  roundtrip [b] <> Ok [b].
Proof. repeat split; discriminate. Qed.

(** C4, at the failing input: [encode] fails on every payload of one byte.
    The assertion of [_write_frame] tests [1 < len(data) < 255], while its
    own message reads 'Data must be array of 1 to 255 bytes.' *)
Theorem encode_one_byte (b : Z) :
  Py.len [b] = 1 /\ encode [b] = Err InvalidPayload.
Proof. split; reflexivity. Qed.

(** The payload-checksum test of [_read_frame] sums every byte read after
    the header (payload, checksum byte and final byte).
    For a frame with a valid start and length checksum whose final byte is not
    the postamble, [decode] fails with [MissingFrameEnd] exactly when that
    whole sum is [0 mod 256], and with [PayloadChecksumMismatch] otherwise; in
    particular, when payload and checksum byte alone sum to [0 mod 256] and the
    final byte is a non-zero byte, the failure is [PayloadChecksumMismatch]. *)
Lemma decode_frame_end (payload : list Z) (fc cs e : Z) :
  Z.land (Py.len payload + fc) 0xFF = 0 ->
  e <> _POSTAMBLE ->
  let raw := _FRAME_START ++ [Py.len payload; fc] ++ payload ++ [cs; e] in
  ((Py.sum payload + cs + e) mod 256 = 0 -> decode raw = Err MissingFrameEnd) /\
  ((Py.sum payload + cs + e) mod 256 <> 0 -> decode raw = Err PayloadChecksumMismatch) /\
  ((Py.sum payload + cs) mod 256 = 0 -> is_byte e ->
   decode raw = Err PayloadChecksumMismatch).
Proof.
  intros Hlc He raw.
  assert (Hrun : decode raw =
                 if negb ((Py.sum payload + cs + e) mod 256 =? 0)
                 then Err PayloadChecksumMismatch else Err MissingFrameEnd).
  { unfold raw. rewrite decode_run. rewrite Hlc. cbn [Z.eqb negb].
    rewrite take_ge by (rewrite length_app; simpl; unfold Py.len; lia).
    rewrite land_255, sum_app.
    change (Py.sum [cs; e]) with (cs + (e + 0)).
    replace (Py.sum payload + (cs + (e + 0))) with (Py.sum payload + cs + e) by lia.
    destruct (negb ((Py.sum payload + cs + e) mod 256 =? 0)); [reflexivity|].
    replace (payload ++ [cs; e]) with ((payload ++ [cs]) ++ [e])
      by (rewrite <- app_assoc; reflexivity).
    rewrite getitem_last.
    destruct (Z.eqb_spec e 0) as [->|_]; [contradiction|reflexivity]. }
  split; [|split].
  - intros Hsum. rewrite Hrun, Hsum. reflexivity.
  - intros Hsum. rewrite Hrun.
    destruct (Z.eqb_spec ((Py.sum payload + cs + e) mod 256) 0); [contradiction|reflexivity].
  - intros Hsum [He0 He256]. rewrite Hrun.
    destruct (Z.eqb_spec ((Py.sum payload + cs + e) mod 256) 0) as [Hz|_]; [|reflexivity].
    exfalso. rewrite <- Z.add_mod_idemp_l, Hsum in Hz by lia.
    rewrite Z.add_0_l, Z.mod_small in Hz by lia. unfold _POSTAMBLE in He. lia.
Qed.

(** C5, at the failing input: on a frame with a valid start and a valid
    length checksum, whose payload and checksum byte sum to [0 mod 256] and
    whose final byte is a byte other than the postamble, [_read_frame] fails
    with the payload-checksum error: [sum(data)] takes in the final byte, so
    the frame-end test of line 124 is not reached. *)
Theorem decode_frame_end_preempted (payload : list Z) (fc cs e : Z) :
  Z.land (Py.len payload + fc) 0xFF = 0 ->
  (Py.sum payload + cs) mod 256 = 0 ->
  is_byte e ->
  e <> _POSTAMBLE ->
  decode (_FRAME_START ++ [Py.len payload; fc] ++ payload ++ [cs; e])
  = Err PayloadChecksumMismatch /\
  decode (_FRAME_START ++ [Py.len payload; fc] ++ payload ++ [cs; e])
  <> Err MissingFrameEnd.
Proof.
  intros Hlc Hsum Hbyte He.
  destruct (decode_frame_end payload fc cs e Hlc He) as (_ & _ & Hpre).
  rewrite (Hpre Hsum Hbyte). split; [reflexivity | discriminate].
Qed.

Lemma decode_frame_end_preempted_witness :
  decode [0x00; 0x00; 0xFF; 0x02; 0xFE; 0x01; 0x02; 0xFD; 0x01]
  = Err PayloadChecksumMismatch.
Proof.
  apply (decode_frame_end_preempted [0x01; 0x02] 0xFE 0xFD 0x01);
    first [reflexivity | unfold is_byte; lia | discriminate].
Defined.

(** ** The command dispatcher *)

Lemma store_params_bytes pre params i :
  is_bytes params -> 0 <= i -> Py.len pre = 2 + i ->
  store_params (pre ++ replicate (length params) 0) i params = Ok (pre ++ params).
Proof.
  revert pre i. induction params as [|val params IH]; intros pre i Hb Hi Hpre.
  - reflexivity.
  - apply Forall_cons in Hb as [Hval Hb].
    cbn [store_params length replicate].
    rewrite setitem_nonneg; [|solve_len|assumption].
    replace (Z.to_nat (2 + i)) with (length pre + 0)%nat by (unfold Py.len in Hpre; lia).
    rewrite insert_app_r. cbn [rbind]. simpl insert.
    replace (pre ++ val :: replicate (length params) 0)
      with ((pre ++ [val]) ++ replicate (length params) 0)
      by (rewrite <- app_assoc; reflexivity).
    rewrite IH; [rewrite <- app_assoc; reflexivity | assumption | lia |].
    rewrite len_app. change (Py.len [val]) with 1. lia.
Qed.

Lemma command_payload_bytes command params :
  is_bytes params ->
  command_payload command params = Ok (_HOSTTOPN532 :: Z.land command 0xFF :: params).
Proof.
  intros Hb. unfold command_payload, Py.bytearray.
  replace (Z.to_nat (2 + Py.len params)) with (2 + length params)%nat by solve_len.
  cbn [replicate Nat.add].
  rewrite setitem_nonneg by first [solve_len | solve_byte]. cbn [rbind]. simpl insert.
  rewrite setitem_nonneg by first [solve_len | solve_byte]. cbn [rbind]. simpl insert.
  apply (store_params_bytes [_HOSTTOPN532; Z.land command 255]); [assumption|lia|reflexivity].
Qed.

Lemma setitem_len l i v l' : Py.setitem l i v = Ok l' -> Py.len l' = Py.len l.
Proof.
  unfold Py.setitem. destruct (Py.position l i); [|discriminate].
  destruct (decide (is_byte v)); [|discriminate].
  intros [= <-]. unfold Py.len. rewrite length_insert. reflexivity.
Qed.

Lemma setitem_err l i v e :
  Py.setitem l i v = Err e -> e = IndexError \/ e = ValueError.
Proof.
  unfold Py.setitem. destruct (Py.position l i).
  - destruct (decide (is_byte v)); [discriminate|]. intros [= <-]. right. reflexivity.
  - intros [= <-]. left. reflexivity.
Qed.

Lemma store_params_len params : forall data i data',
  store_params data i params = Ok data' -> Py.len data' = Py.len data.
Proof.
  induction params as [|val params IH]; intros data i data'; cbn [store_params].
  - intros [= <-]. reflexivity.
  - destruct (Py.setitem data (2 + i) val) as [data1|e] eqn:Hset; [|discriminate].
    cbn [rbind]. intros Hrest. apply IH in Hrest. apply setitem_len in Hset. lia.
Qed.

Lemma store_params_err params : forall data i e,
  store_params data i params = Err e -> e = IndexError \/ e = ValueError.
Proof.
  induction params as [|val params IH]; intros data i e; cbn [store_params].
  - discriminate.
  - destruct (Py.setitem data (2 + i) val) as [data1|e1] eqn:Hset; cbn [rbind].
    + apply IH.
    + intros [= <-]. eapply setitem_err, Hset.
Qed.

Lemma command_payload_len command params data :
  command_payload command params = Ok data -> Py.len data = 2 + Py.len params.
Proof.
  unfold command_payload.
  destruct (Py.setitem (Py.bytearray (2 + Py.len params)) 0 _HOSTTOPN532)
    as [d0|] eqn:H0; [|discriminate]. cbn [rbind].
  destruct (Py.setitem d0 1 (Z.land command 255)) as [d1|] eqn:H1; [|discriminate].
  cbn [rbind]. intros Hst.
  apply store_params_len in Hst. apply setitem_len in H0, H1.
  rewrite Hst, H1, H0. unfold Py.bytearray, Py.len. rewrite length_replicate. lia.
Qed.

Lemma command_payload_err command params e :
  command_payload command params = Err e -> e = IndexError \/ e = ValueError.
Proof.
  unfold command_payload.
  destruct (Py.setitem (Py.bytearray (2 + Py.len params)) 0 _HOSTTOPN532)
    as [d0|e0] eqn:H0; cbn [rbind].
  - destruct (Py.setitem d0 1 (Z.land command 255)) as [d1|e1] eqn:H1; cbn [rbind].
    + apply store_params_err.
    + intros [= <-]. eapply setitem_err, H1.
  - intros [= <-]. eapply setitem_err, H0.
Qed.

Lemma stream_reads_app t1 t2 :
  stream_reads (t1 ++ t2) = stream_reads t1 ++ stream_reads t2.
Proof.
  induction t1 as [|[buf|buf|n got] t1 IH]; cbn [app stream_reads];
    rewrite ?IH; reflexivity.
Qed.

Lemma stream_reads_after_write frame u :
  stream_reads (trace (port_after_write frame u))
  = stream_reads (trace u) ++ [(6, take 6 (line u))].
Proof.
  unfold port_after_write, flushed, log.
  destruct u as [[|b rx] ln tr]; cbn [rxbuf line trace];
    rewrite !stream_reads_app; cbn [stream_reads]; rewrite ?app_nil_r; reflexivity.
Qed.

(** C6: when the six bytes read after the frame are not the acknowledgement
    (or are fewer than six), [call_function] ends with [AckMismatch]; the
    acknowledgement read is the last thing done on the port, so [_read_frame]
    reads nothing. *)
Theorem call_function_ack_mismatch (command : Z) (params : list Z) (u : Uart) :
  is_bytes params ->
  Py.len params < 253 ->
  take 6 (line u) <> _ACK ->
  let frame := frame_layout (_HOSTTOPN532 :: Z.land command 0xFF :: params) in
  call_function command params u = (Err AckMismatch, port_after_write frame u) /\
  stream_reads (trace (port_after_write frame u))
  = stream_reads (trace u) ++ [(Py.len _ACK, take 6 (line u))] /\
  last (trace (port_after_write frame u)) = Some (StreamRead (Py.len _ACK) (take 6 (line u))).
Proof.
  intros Hb Hlen Hack frame. split; [|split].
  - unfold call_function. unfold bind at 1. unfold lift at 1.
    rewrite command_payload_bytes by assumption.
    unfold bind at 1.
    rewrite (write_frame_run _ frame).
    + rewrite bool_decide_eq_true_2 by assumption. reflexivity.
    + apply encode_layout. pose proof (len_nonneg params). solve_len.
  - apply stream_reads_after_write.
  - unfold port_after_write, log. cbn [trace]. apply last_snoc.
Qed.

Lemma call_function_ack_mismatch_witness :
  fst (call_function _COMMAND_GETFIRMWAREVERSION [] (fresh_port [0; 0; 255; 0; 255]))
  = Err AckMismatch.
Proof.
  pose proof (call_function_ack_mismatch _COMMAND_GETFIRMWAREVERSION []
                (fresh_port [0; 0; 255; 0; 255])) as H.
  rewrite (proj1 (H ltac:(constructor) ltac:(reflexivity) ltac:(discriminate))).
  reflexivity.
Defined.

Lemma call_function_run command params data u u1 response u2 :
  command_payload command params = Ok data ->
  _write_frame data u = (Ok tt, u1) ->
  _read_frame u1 = (Ok response, u2) ->
  call_function command params u =
    match response with
    | marker :: code :: arguments =>
        if (marker =? _PN532TOHOST) && (code =? command + 1)
        then (Ok arguments, u2) else (Err UnexpectedResponse, u2)
    | _ => (Err TruncatedResponse, u2)
    end.
Proof.
  intros Hpay Hwrite Hread. unfold call_function.
  unfold bind at 1. unfold lift at 1. rewrite Hpay.
  unfold bind at 1. rewrite Hwrite.
  unfold bind at 1. rewrite Hread.
  destruct response as [|marker [|code arguments]]; [reflexivity | reflexivity |].
  rewrite (proj2 (Z.ltb_ge _ _)) by solve_len.
  unfold bind at 1. unfold lift at 1.
  rewrite (getitem_nonneg _ 0 marker) by (reflexivity || lia).
  unfold bind at 1. unfold lift at 1.
  rewrite (getitem_nonneg _ 1 code) by (reflexivity || lia).
  rewrite slice_from_nonneg by lia. change (drop (Z.to_nat 2) (marker :: code :: arguments)) with arguments.
  destruct ((marker =? _PN532TOHOST) && (code =? command + 1)); reflexivity.
Qed.

(** C7: once the frame is sent and acknowledged and a response frame is
    received, [call_function] fails with [TruncatedResponse] when the response
    has fewer than 2 bytes, with [UnexpectedResponse] when its first byte is
    not [0xD5] or its second byte is not [command + 1], and otherwise returns
    the response without its first two bytes. *)
Theorem call_function_response (command : Z) (params data : list Z) (u u1 u2 : Uart)
    (response : list Z) :
  command_payload command params = Ok data ->
  _write_frame data u = (Ok tt, u1) ->
  _read_frame u1 = (Ok response, u2) ->
  (Py.len response < 2 ->
   call_function command params u = (Err TruncatedResponse, u2)) /\
  (2 <= Py.len response ->
   response !! 0%nat <> Some _PN532TOHOST \/ response !! 1%nat <> Some (command + 1) ->
   call_function command params u = (Err UnexpectedResponse, u2)) /\
  (response !! 0%nat = Some _PN532TOHOST ->
   response !! 1%nat = Some (command + 1) ->
   call_function command params u = (Ok (drop 2 response), u2)).
Proof.
  intros Hpay Hwrite Hread.
  rewrite (call_function_run _ _ _ _ _ _ _ Hpay Hwrite Hread).
  destruct response as [|marker [|code arguments]]; cbn [lookup list_lookup drop].
  - split; [reflexivity|]. split; [intros; solve_len | discriminate].
  - split; [reflexivity|]. split; [intros; solve_len | discriminate].
  - split; [intros; solve_len|]. split.
    + intros _ [Hm|Hc].
      * destruct (Z.eqb_spec marker _PN532TOHOST) as [->|_]; [contradiction|reflexivity].
      * destruct (Z.eqb_spec code (command + 1)) as [->|_]; [contradiction|].
        rewrite andb_false_r. reflexivity.
    + intros [= ->] [= ->]. rewrite !Z.eqb_refl. reflexivity.
Qed.

Lemma call_function_response_witness :
  fst (call_function _COMMAND_GETFIRMWAREVERSION []
         (fresh_port (_ACK ++ [0; 0; 255; 6; 250; 0xD5; 0x03; 0x32; 0x01; 0x06; 0x07; 0xE8; 0])))
  = Ok [0x32; 0x01; 0x06; 0x07].
Proof.
  set (u := fresh_port _).
  pose proof (call_function_response _COMMAND_GETFIRMWAREVERSION [] [0xD4; 0x02] u
                (snd (_write_frame [0xD4; 0x02] u))
                (snd (_read_frame (snd (_write_frame [0xD4; 0x02] u))))
                [0xD5; 0x03; 0x32; 0x01; 0x06; 0x07]
                eq_refl eq_refl eq_refl) as (_ & _ & H).
  rewrite (H eq_refl eq_refl). reflexivity.
Defined.

(** ** Which exceptions a coroutine can end with *)

Section OnlyRaises.

Context (E : exn -> Prop).

Lemma only_raises_ret {A} (a : A) : only_raises E (ret a).
Proof. intros u e. discriminate. Qed.

Lemma only_raises_raise {A} e : E e -> only_raises E (@raise A e).
Proof. intros He u e' [= <-]. exact He. Qed.

Lemma only_raises_lift {A} (r : result A) :
  (forall e, r = Err e -> E e) -> only_raises E (lift r).
Proof. intros Hr u e. cbn. apply Hr. Qed.

Lemma only_raises_bind {A B} (m : M A) (k : A -> M B) :
  only_raises E m -> (forall a, only_raises E (k a)) -> only_raises E (bind m k).
Proof.
  intros Hm Hk u e. unfold bind.
  destruct (m u) as [[a|e'] u'] eqn:Hmu.
  - apply Hk.
  - intros [= <-]. apply (Hm u). rewrite Hmu. reflexivity.
Qed.

Lemma only_raises_if {A} (b : bool) (m1 m2 : M A) :
  only_raises E m1 -> only_raises E m2 -> only_raises E (if b then m1 else m2).
Proof. destruct b; auto. Qed.

Lemma only_raises_awrite buf : only_raises E (swriter_awrite buf).
Proof. intros u e. discriminate. Qed.

Lemma only_raises_any : only_raises E uart_any.
Proof. intros u e. discriminate. Qed.

Lemma only_raises_uart_read n : only_raises E (uart_read n).
Proof. intros u e. discriminate. Qed.

Lemma only_raises_sreader_read n : only_raises E (sreader_read n).
Proof. intros u e. discriminate. Qed.

Lemma only_raises_flush fuel :
  E FuelExhausted -> forall waiting, only_raises E (flush_buffer fuel waiting).
Proof.
  intros Hfuel. induction fuel as [|fuel IH]; intros waiting; cbn [flush_buffer];
    apply only_raises_if; try apply only_raises_ret.
  - apply only_raises_raise, Hfuel.
  - apply only_raises_bind; [apply only_raises_uart_read|]. intros _.
    apply only_raises_bind; [apply only_raises_any|]. exact IH.
Qed.

Lemma only_raises_write_frame data :
  (forall e, encode data = Err e -> E e) ->
  E FuelExhausted -> E AckMismatch ->
  only_raises E (_write_frame data).
Proof.
  intros Henc Hfuel Hack. unfold _write_frame.
  apply only_raises_bind; [apply only_raises_lift, Henc|]. intros frame.
  apply only_raises_bind; [apply only_raises_awrite|]. intros _.
  apply only_raises_bind; [apply only_raises_any|]. intros waiting.
  apply only_raises_bind.
  { intros u. apply only_raises_flush, Hfuel. }
  intros _.
  apply only_raises_bind; [apply only_raises_awrite|]. intros _.
  apply only_raises_bind; [apply only_raises_ret|]. intros _.
  apply only_raises_bind; [apply only_raises_sreader_read|]. intros ack.
  apply only_raises_if; [apply only_raises_raise, Hack | apply only_raises_ret].
Qed.

Lemma getitem_err l i e : Py.getitem l i = Err e -> e = IndexError.
Proof.
  unfold Py.getitem. destruct (Py.position l i) as [j|]; [|congruence].
  destruct (l !! j); congruence.
Qed.

Lemma only_raises_getitem l i : E IndexError -> only_raises E (lift (Py.getitem l i)).
Proof. intros Hi. apply only_raises_lift. intros e ->%getitem_err. exact Hi. Qed.

Lemma only_raises_read_frame :
  E MalformedStart -> E LengthChecksumMismatch -> E PayloadChecksumMismatch ->
  E IndexError -> E MissingFrameEnd ->
  only_raises E _read_frame.
Proof.
  intros Hstart Hlen Hsum Hidx Hend. unfold _read_frame.
  apply only_raises_bind; [apply only_raises_sreader_read|]. intros response.
  apply only_raises_if; [apply only_raises_raise, Hstart|].
  apply only_raises_bind; [apply only_raises_getitem, Hidx|]. intros frame_len.
  apply only_raises_bind; [apply only_raises_getitem, Hidx|]. intros frame_checksum.
  apply only_raises_if; [apply only_raises_raise, Hlen|].
  apply only_raises_bind; [apply only_raises_sreader_read|]. intros data.
  apply only_raises_if; [apply only_raises_raise, Hsum|].
  apply only_raises_bind; [apply only_raises_getitem, Hidx|]. intros frame_end.
  apply only_raises_if; [apply only_raises_raise, Hend | apply only_raises_ret].
Qed.

Lemma only_raises_call_function command params :
  (forall e, command_payload command params = Err e -> E e) ->
  (forall data e, command_payload command params = Ok data -> encode data = Err e -> E e) ->
  Forall E exchange_errors ->
  only_raises E (call_function command params).
Proof.
  intros Hpay Henc HE. unfold exchange_errors in HE.
  repeat (apply Forall_cons in HE as [? HE]).
  unfold call_function. intros u e. unfold bind at 1. unfold lift at 1.
  destruct (command_payload command params) as [data|e'] eqn:Hdata.
  2:{ intros [= <-]. apply Hpay. reflexivity. }
  revert u e. change (only_raises E
    (_write_frame data;;;
     response <- _read_frame;;
     (if Py.len response <? 2
      then raise TruncatedResponse
      else
       marker <- lift (Py.getitem response 0);;
       code <- lift (Py.getitem response 1);;
       (if negb ((marker =? _PN532TOHOST) && (code =? command + 1))
        then raise UnexpectedResponse
        else ret (Py.slice_from response 2))))).
  apply only_raises_bind.
  { apply only_raises_write_frame; [intros e; apply Henc; reflexivity | assumption | assumption]. }
  intros _.
  apply only_raises_bind; [apply only_raises_read_frame; assumption|]. intros response.
  apply only_raises_if; [apply only_raises_raise; assumption|].
  apply only_raises_bind; [apply only_raises_getitem; assumption|]. intros marker.
  apply only_raises_bind; [apply only_raises_getitem; assumption|]. intros code.
  apply only_raises_if; [apply only_raises_raise; assumption | apply only_raises_ret].
Qed.

End OnlyRaises.

(** ** A whole exchange *)

Lemma read_frame_layout data rest tr :
  Py.len data < 256 ->
  exists tr',
    _read_frame (mkUart [] (frame_layout data ++ rest) tr) = (Ok data, mkUart [] rest tr').
Proof.
  intros Hlen. pose proof (len_nonneg data) as Hpos.
  set (c := (- Py.sum data) mod 256).
  replace (frame_layout data ++ rest)
    with (_FRAME_START ++ [Py.len data; (- Py.len data) mod 256]
          ++ ((data ++ [c; _POSTAMBLE]) ++ rest))
    by (unfold frame_layout; fold c; cbn [app _FRAME_START]; rewrite <- !app_assoc; reflexivity).
  rewrite read_frame_run. cbv zeta.
  replace (Z.to_nat (Py.len data + 2)) with (length (data ++ [c; _POSTAMBLE]))
    by solve_len.
  rewrite take_app_length, drop_app_length.
  rewrite !land_255.
  rewrite Z.add_mod_idemp_r by lia. replace (Py.len data + - Py.len data) with 0 by lia.
  change (negb (0 mod 256 =? 0)) with false. cbv iota.
  rewrite sum_app. change (Py.sum [c; _POSTAMBLE]) with (c + (0 + 0)).
  unfold c at 1. rewrite Z.add_0_r, Z.add_mod_idemp_r by lia.
  replace (Py.sum data + - Py.sum data) with 0 by lia.
  change (negb (0 mod 256 =? 0)) with false. cbv iota.
  replace (data ++ [c; _POSTAMBLE]) with ((data ++ [c]) ++ [_POSTAMBLE])
    by (rewrite <- app_assoc; reflexivity).
  rewrite getitem_last.
  change (negb (_POSTAMBLE =? 0)) with false. cbv iota.
  rewrite slice_0 by lia.
  replace (Z.to_nat (Py.len data)) with (length data) by solve_len.
  rewrite <- !app_assoc. rewrite take_app_length.
  eexists. unfold log. cbn [rxbuf line trace]. reflexivity.
Qed.

Lemma call_function_exchange command params response rest u :
  is_bytes params -> Py.len params < 253 -> Py.len response < 256 ->
  line u = _ACK ++ frame_layout response ++ rest ->
  exists u',
    rxbuf u' = [] /\ line u' = rest /\
    call_function command params u =
      match response with
      | marker :: code :: arguments =>
          if (marker =? _PN532TOHOST) && (code =? command + 1)
          then (Ok arguments, u') else (Err UnexpectedResponse, u')
      | _ => (Err TruncatedResponse, u')
      end.
Proof.
  intros Hb Hparams Hresp Hline.
  set (data := _HOSTTOPN532 :: Z.land command 0xFF :: params).
  assert (Hpay : command_payload command params = Ok data)
    by (apply command_payload_bytes, Hb).
  assert (Henc : encode data = Ok (frame_layout data)).
  { apply encode_layout. pose proof (len_nonneg params). unfold data. solve_len. }
  pose proof (write_frame_run data _ u Henc) as Hwrite.
  rewrite Hline in Hwrite. change (take 6 (_ACK ++ frame_layout response ++ rest)) with _ACK in Hwrite.
  rewrite bool_decide_eq_false_2 in Hwrite by (intros H; apply H; reflexivity).
  destruct (read_frame_layout response rest
              (trace (port_after_write (frame_layout data) u)) Hresp) as [tr' Hread].
  assert (Hport : port_after_write (frame_layout data) u
                  = mkUart [] (frame_layout response ++ rest)
                           (trace (port_after_write (frame_layout data) u))).
  { assert (Hl : line (port_after_write (frame_layout data) u) = drop 6 (line u))
      by reflexivity.
    assert (Hr : rxbuf (port_after_write (frame_layout data) u) = []) by reflexivity.
    rewrite Hline in Hl.
    change (drop 6 (_ACK ++ frame_layout response ++ rest))
      with (frame_layout response ++ rest) in Hl.
    destruct (port_after_write (frame_layout data) u) as [rx ln tr].
    cbn [rxbuf line trace] in *. subst rx ln. reflexivity. }
  rewrite <- Hport in Hread.
  exists (mkUart [] rest tr'). split; [reflexivity|]. split; [reflexivity|].
  rewrite (call_function_run _ _ _ _ _ _ _ Hpay Hwrite Hread).
  destruct response as [|marker [|code arguments]]; reflexivity.
Qed.

(** ** The device operations *)

Lemma read_passive_target_run card_baud u response u' :
  call_function _COMMAND_INLISTPASSIVETARGET [0x01; card_baud] u = (Ok response, u') ->
  read_passive_target card_baud u =
    (match Py.getitem response 0 with
     | Err e => Err e
     | Ok count =>
         if negb (count =? 0x01) then Err MultipleCardsDetected else
         match Py.getitem response 5 with
         | Err e => Err e
         | Ok uid_len =>
             if 7 <? uid_len then Err UidTooLong
             else Ok (Py.slice response 6 (6 + uid_len))
         end
     end, u').
Proof.
  intros Hcall. unfold read_passive_target. unfold bind at 1. rewrite Hcall.
  unfold bind at 1. unfold lift at 1.
  destruct (Py.getitem response 0) as [count|e]; [|reflexivity].
  destruct (negb (count =? 1)); [reflexivity|].
  unfold bind at 1. unfold lift at 1.
  destruct (Py.getitem response 5) as [uid_len|e]; [|reflexivity].
  destruct (7 <? uid_len); [reflexivity|].
  unfold bind, lift, ret. reflexivity.
Qed.

(** C8, as the code has it: on a response of at least 7 bytes,
    [read_passive_target] fails with [MultipleCardsDetected] when the first
    byte is not 1, else with [UidTooLong] when the byte at index 5 exceeds 7,
    and otherwise returns [response[6 : 6 + response[5]]]: the bytes from
    index 6 on, at most [response[5]] of them.  The UID has [response[5]]
    bytes only when the response has that many after index 6. *)
Theorem read_passive_target_uid (card_baud : Z) (u u' : Uart) (response : list Z)
    (count uid_len : Z) :
  call_function _COMMAND_INLISTPASSIVETARGET [0x01; card_baud] u = (Ok response, u') ->
  is_bytes response ->
  7 <= Py.len response ->
  response !! 0%nat = Some count ->
  response !! 5%nat = Some uid_len ->
  (count <> 1 ->
   read_passive_target card_baud u = (Err MultipleCardsDetected, u')) /\
  (count = 1 -> 7 < uid_len ->
   read_passive_target card_baud u = (Err UidTooLong, u')) /\
  (count = 1 -> uid_len <= 7 ->
   read_passive_target card_baud u
   = (Ok (take (Z.to_nat uid_len) (drop 6 response)), u') /\
   Py.len (take (Z.to_nat uid_len) (drop 6 response))
   = Z.min uid_len (Py.len response - 6)).
Proof.
  intros Hcall Hbytes Hlen Hcount Huid.
  rewrite (read_passive_target_run _ _ _ _ Hcall).
  rewrite (getitem_nonneg _ 0 count) by (lia || exact Hcount).
  rewrite (getitem_nonneg _ 5 uid_len) by (lia || exact Huid).
  assert (Hpos : 0 <= uid_len).
  { unfold is_bytes in Hbytes. rewrite Forall_lookup in Hbytes.
    apply (Hbytes _ _ Huid). }
  split; [|split].
  - intros Hne. destruct (Z.eqb_spec count 1); [contradiction|reflexivity].
  - intros -> Hgt. cbn [Z.eqb Pos.eqb negb].
    rewrite (proj2 (Z.ltb_lt _ _)) by assumption. reflexivity.
  - intros -> Hle. cbn [Z.eqb Pos.eqb negb].
    rewrite (proj2 (Z.ltb_ge _ _)) by assumption.
    rewrite slice_nonneg by lia. split; [reflexivity|].
    unfold Py.len in *. rewrite length_take, length_drop. lia.
Qed.

Lemma read_passive_target_uid_witness :
  fst (read_passive_target _MIFARE_ISO14443A
         (fresh_port (_ACK ++ [0x00; 0x00; 0xFF; 0x0C; 0xF4; 0xD5; 0x4B; 0x01; 0x00; 0x00;
                               0x00; 0x00; 0x04; 0xAA; 0xBB; 0xCC; 0xDD; 0xCD; 0x00])))
  = Ok [0xAA; 0xBB; 0xCC; 0xDD].
Proof.
  set (u := fresh_port _).
  pose proof (read_passive_target_uid _MIFARE_ISO14443A u
                (snd (call_function _COMMAND_INLISTPASSIVETARGET [0x01; _MIFARE_ISO14443A] u))
                [0x01; 0x00; 0x00; 0x00; 0x00; 0x04; 0xAA; 0xBB; 0xCC; 0xDD] 0x01 0x04
                eq_refl) as H.
  destruct H as (_ & _ & H).
  - unfold is_bytes. repeat constructor; discriminate.
  - discriminate.
  - reflexivity.
  - reflexivity.
  - destruct (H eq_refl) as [-> _]; [discriminate | reflexivity].
Defined.

(** C8 as stated fails: the response has 7 bytes, its first byte is 1 and the
    byte at index 5 is 4 (not above 7), and the UID returned has 1 byte, not
    4. *)
Lemma read_passive_target_uid_counterexample :
  decode [0x00; 0x00; 0xFF; 0x09; 0xF7; 0xD5; 0x4B; 0x01; 0x00; 0x00; 0x00; 0x00; 0x04; 0xAA; 0x31; 0x00]
  = Ok [0xD5; 0x4B; 0x01; 0x00; 0x00; 0x00; 0x00; 0x04; 0xAA] /\
  fst (call_function _COMMAND_INLISTPASSIVETARGET [0x01; _MIFARE_ISO14443A]
         (fresh_port (_ACK ++ [0x00; 0x00; 0xFF; 0x09; 0xF7; 0xD5; 0x4B; 0x01; 0x00; 0x00;
                               0x00; 0x00; 0x04; 0xAA; 0x31; 0x00])))
  = Ok [0x01; 0x00; 0x00; 0x00; 0x00; 0x04; 0xAA] /\
  7 <= Py.len [0x01; 0x00; 0x00; 0x00; 0x00; 0x04; 0xAA] /\
  fst (read_passive_target _MIFARE_ISO14443A
         (fresh_port (_ACK ++ [0x00; 0x00; 0xFF; 0x09; 0xF7; 0xD5; 0x4B; 0x01; 0x00; 0x00;
                               0x00; 0x00; 0x04; 0xAA; 0x31; 0x00])))
  = Ok [0xAA] /\
  Py.len [0xAA] <> 4.
Proof. repeat split; try reflexivity; discriminate. Qed.

(** C9, as the code has it: [read_passive_target] subscripts the response
    without testing its length.  On a response of fewer than 6 bytes it ends
    with [IndexError] when the response is empty or its first byte is 1, and
    with [MultipleCardsDetected] when there is a first byte and it is not 1
    (the test on [response[0]] comes before [response[5]] is read). *)
Theorem read_passive_target_short (card_baud : Z) (u u' : Uart) (response : list Z) :
  call_function _COMMAND_INLISTPASSIVETARGET [0x01; card_baud] u = (Ok response, u') ->
  Py.len response < 6 ->
  (response = [] \/ response !! 0%nat = Some 1 ->
   read_passive_target card_baud u = (Err IndexError, u')) /\
  (forall count, response !! 0%nat = Some count -> count <> 1 ->
   read_passive_target card_baud u = (Err MultipleCardsDetected, u')).
Proof.
  intros Hcall Hlen. rewrite (read_passive_target_run _ _ _ _ Hcall).
  rewrite (getitem_above response 5) by lia.
  split.
  - intros [-> | Hfirst]; [reflexivity|].
    rewrite (getitem_nonneg _ 0 1) by (lia || exact Hfirst). reflexivity.
  - intros count Hfirst Hne.
    rewrite (getitem_nonneg _ 0 count) by (lia || exact Hfirst).
    destruct (Z.eqb_spec count 1); [contradiction|reflexivity].
Qed.

Lemma read_passive_target_short_witness :
  fst (read_passive_target _MIFARE_ISO14443A
         (fresh_port (_ACK ++ [0x00; 0x00; 0xFF; 0x04; 0xFC; 0xD5; 0x4B; 0x01; 0x00; 0xDF; 0x00])))
  = Err IndexError.
Proof.
  set (u := fresh_port _).
  pose proof (read_passive_target_short _MIFARE_ISO14443A u
                (snd (call_function _COMMAND_INLISTPASSIVETARGET [0x01; _MIFARE_ISO14443A] u))
                [0x01; 0x00] eq_refl) as H.
  destruct H as [H _]; [reflexivity|].
  rewrite H; [reflexivity | right; reflexivity].
Defined.

(** C9 as stated fails: the dispatcher returns a response of one byte (fewer
    than 6), and [read_passive_target] ends with [MultipleCardsDetected], an
    error of the taxonomy, not with an indexing error. *)
Lemma read_passive_target_short_counterexample :
  fst (call_function _COMMAND_INLISTPASSIVETARGET [0x01; _MIFARE_ISO14443A]
         (fresh_port (_ACK ++ [0x00; 0x00; 0xFF; 0x03; 0xFD; 0xD5; 0x4B; 0x00; 0xE0; 0x00])))
  = Ok [0x00] /\
  Py.len [0x00] < 6 /\
  fst (read_passive_target _MIFARE_ISO14443A
         (fresh_port (_ACK ++ [0x00; 0x00; 0xFF; 0x03; 0xFD; 0xD5; 0x4B; 0x00; 0xE0; 0x00])))
  = Err MultipleCardsDetected /\
  fst (read_passive_target _MIFARE_ISO14443A
         (fresh_port (_ACK ++ [0x00; 0x00; 0xFF; 0x03; 0xFD; 0xD5; 0x4B; 0x00; 0xE0; 0x00])))
  <> Err IndexError.
Proof. repeat split; try reflexivity; discriminate. Qed.

(** C2, as the code has it: the UID length is the byte at index 5 of the
    response arguments and the UID starts at index 6.  When the exchange for
    command [0x4A] produces the response
    [D5 4B 01 00 00 00 00 04 AA BB CC DD], whatever was buffered on the port
    before, [read_passive_target] returns the UID [AA BB CC DD]. *)
Theorem read_passive_target_example (u : Uart) :
  line u = _ACK ++ frame_layout [0xD5; 0x4B; 0x01; 0x00; 0x00; 0x00; 0x00; 0x04;
                                 0xAA; 0xBB; 0xCC; 0xDD] ->
  fst (read_passive_target _MIFARE_ISO14443A u) = Ok [0xAA; 0xBB; 0xCC; 0xDD].
Proof.
  intros Hline.
  destruct (call_function_exchange _COMMAND_INLISTPASSIVETARGET
              [0x01; _MIFARE_ISO14443A]
              [0xD5; 0x4B; 0x01; 0x00; 0x00; 0x00; 0x00; 0x04; 0xAA; 0xBB; 0xCC; 0xDD]
              [] u) as (u' & _ & _ & Hcall).
  - unfold is_bytes. repeat constructor; discriminate.
  - reflexivity.
  - reflexivity.
  - rewrite app_nil_r. exact Hline.
  - cbn [Z.eqb Pos.eqb andb _PN532TOHOST _COMMAND_INLISTPASSIVETARGET Z.add Pos.add Pos.succ] in Hcall.
    rewrite (read_passive_target_run _ _ _ _ Hcall). reflexivity.
Qed.

Lemma read_passive_target_example_witness :
  fst (read_passive_target _MIFARE_ISO14443A
         (mkUart [0x01; 0x02]
                 (_ACK ++ [0x00; 0x00; 0xFF; 0x0C; 0xF4; 0xD5; 0x4B; 0x01; 0x00; 0x00;
                           0x00; 0x00; 0x04; 0xAA; 0xBB; 0xCC; 0xDD; 0xCD; 0x00])
                 []))
  = Ok [0xAA; 0xBB; 0xCC; 0xDD].
Proof. apply read_passive_target_example. reflexivity. Defined.

(** C2 as stated fails: the exchange for command [0x4A] produces the response
    [D5 4B 01 00 00 04 AA BB CC DD]; the byte at index 5 of its arguments is
    [0xBB], and [read_passive_target] ends with [UidTooLong]. *)
Lemma read_passive_target_example_counterexample :
  decode [0x00; 0x00; 0xFF; 0x0A; 0xF6; 0xD5; 0x4B; 0x01; 0x00; 0x00; 0x04;
          0xAA; 0xBB; 0xCC; 0xDD; 0xCD; 0x00]
  = Ok [0xD5; 0x4B; 0x01; 0x00; 0x00; 0x04; 0xAA; 0xBB; 0xCC; 0xDD] /\
  fst (read_passive_target _MIFARE_ISO14443A
         (fresh_port (_ACK ++ [0x00; 0x00; 0xFF; 0x0A; 0xF6; 0xD5; 0x4B; 0x01; 0x00; 0x00;
                               0x04; 0xAA; 0xBB; 0xCC; 0xDD; 0xCD; 0x00])))
  = Err UidTooLong /\
  fst (read_passive_target _MIFARE_ISO14443A
         (fresh_port (_ACK ++ [0x00; 0x00; 0xFF; 0x0A; 0xF6; 0xD5; 0x4B; 0x01; 0x00; 0x00;
                               0x04; 0xAA; 0xBB; 0xCC; 0xDD; 0xCD; 0x00])))
  <> Ok [0xAA; 0xBB; 0xCC; 0xDD].
Proof. repeat split; try reflexivity; discriminate. Qed.

Lemma encode_err data e : encode data = Err e -> ~ (1 < Py.len data < 255).
Proof. intros Henc Hlen. rewrite encode_layout in Henc by assumption. discriminate. Qed.

Lemma call_function_never_undetected command params :
  only_raises (fun e => e <> DeviceNotDetected) (call_function command params).
Proof.
  apply only_raises_call_function.
  - intros e [-> | ->]%command_payload_err; discriminate.
  - intros data e _ Henc.
    destruct (decide (1 < Py.len data < 255)) as [Hlen|Hlen].
    + apply encode_err in Henc. contradiction.
    + rewrite encode_rejects in Henc by assumption. injection Henc as <-. discriminate.
  - unfold exchange_errors. repeat constructor; discriminate.
Qed.

Lemma call_function_payload_accepted command params :
  Py.len params < 253 ->
  only_raises (fun e => e <> InvalidPayload) (call_function command params).
Proof.
  intros Hparams. pose proof (len_nonneg params) as Hpos.
  apply only_raises_call_function.
  - intros e [-> | ->]%command_payload_err; discriminate.
  - intros data e Hdata%command_payload_len Henc%encode_err. lia.
  - unfold exchange_errors. repeat constructor; discriminate.
Qed.

Lemma get_firmware_version_call u :
  get_firmware_version u = call_function _COMMAND_GETFIRMWAREVERSION [] u.
Proof.
  unfold get_firmware_version, bind, ret.
  destruct (call_function _COMMAND_GETFIRMWAREVERSION [] u) as [[response|e] u'];
    reflexivity.
Qed.

(** [get_firmware_version] is [call_function] for
    command [0x02] without arguments; it returns the response's bytes as a
    tuple, whatever their number (four values when the response has four
    bytes), lets a failure of the exchange through unchanged, and never ends
    with [DeviceNotDetected]: its only test is [response is None], and
    [call_function] does not return [None]. *)
Lemma get_firmware_version_run (u : Uart) :
  get_firmware_version u = call_function _COMMAND_GETFIRMWAREVERSION [] u /\
  fst (get_firmware_version u) <> Err DeviceNotDetected.
Proof.
  split; [apply get_firmware_version_call|].
  rewrite get_firmware_version_call. intros Herr.
  exact (call_function_never_undetected _ _ _ _ Herr eq_refl).
Qed.

(** C3, at the failing input: the exchange gives a response without content
    ([D5 03]) and [get_firmware_version] returns the empty tuple; with a
    content of three bytes it returns a tuple of three values.  Its test
    [response is None] does not fire, and the tuple does not have the four
    values (IC, Ver, Rev, Support) of its docstring. *)
Theorem get_firmware_version_short_content :
  fst (call_function _COMMAND_GETFIRMWAREVERSION []
         (fresh_port (_ACK ++ [0x00; 0x00; 0xFF; 0x02; 0xFE; 0xD5; 0x03; 0x28; 0x00])))
  = Ok [] /\
  fst (get_firmware_version
         (fresh_port (_ACK ++ [0x00; 0x00; 0xFF; 0x02; 0xFE; 0xD5; 0x03; 0x28; 0x00])))
  = Ok [] /\
  fst (get_firmware_version
         (fresh_port (_ACK ++ [0x00; 0x00; 0xFF; 0x05; 0xFB; 0xD5; 0x03; 0x32; 0x01; 0x06;
                               0xEF; 0x00])))
  = Ok [0x32; 0x01; 0x06].
Proof. repeat split. Qed.

(** C10: the payload [call_function] builds has 2 bytes more than there are
    arguments; the four operations pass 3, 0, 2 and 1 arguments, so the
    assertion of [_write_frame] holds for each of them and none of them can
    end with its error. *)
Theorem invalid_payload_unreachable (card_baud : Z) :
  (forall command params data,
     command_payload command params = Ok data -> Py.len data = 2 + Py.len params) /\
  Forall (fun params : list Z => 1 < 2 + Py.len params < 255)
         [[0x01; 0x14; 0x01]; []; [0x01; card_baud]; [0x00]] /\
  only_raises (fun e => e <> InvalidPayload) SAM_configuration /\
  only_raises (fun e => e <> InvalidPayload) get_firmware_version /\
  only_raises (fun e => e <> InvalidPayload) (read_passive_target card_baud) /\
  only_raises (fun e => e <> InvalidPayload) release_targets.
Proof.
  split; [exact command_payload_len|].
  split; [repeat constructor|].
  split; [|split; [|split]].
  - unfold SAM_configuration. apply only_raises_bind.
    + apply call_function_payload_accepted. reflexivity.
    + intros _. apply only_raises_ret.
  - intros u e. rewrite get_firmware_version_call.
    apply call_function_payload_accepted. reflexivity.
  - unfold read_passive_target. apply only_raises_bind.
    + apply call_function_payload_accepted. reflexivity.
    + intros response.
      apply only_raises_bind; [apply only_raises_getitem; discriminate|]. intros count.
      apply only_raises_if; [apply only_raises_raise; discriminate|].
      apply only_raises_bind; [apply only_raises_getitem; discriminate|]. intros uid_len.
      apply only_raises_if; [apply only_raises_raise; discriminate|].
      apply only_raises_bind; [apply only_raises_getitem; discriminate|]. intros uid_len'.
      apply only_raises_ret.
  - unfold release_targets. apply only_raises_bind.
    + apply call_function_payload_accepted. reflexivity.
    + intros _. apply only_raises_ret.
Qed.

Lemma invalid_payload_unreachable_witness :
  Py.len [0xD4; 0x4A; 0x01; 0x00] = 2 + Py.len [0x01; 0x00] /\
  fst (read_passive_target _MIFARE_ISO14443A (fresh_port [])) <> Err InvalidPayload.
Proof.
  destruct (invalid_payload_unreachable _MIFARE_ISO14443A)
    as (Hlen & _ & _ & _ & Hpoll & _).
  split.
  - apply (Hlen _COMMAND_INLISTPASSIVETARGET [0x01; 0x00]). reflexivity.
  - intros Herr. exact (Hpoll _ _ Herr eq_refl).
Defined.

(** ** Further properties of the frame codec *)

(** X1: for a payload of 2 to 254 bytes [_write_frame] builds the frame
    preamble, start code, length, [(-length) mod 256], payload,
    [(-sum(payload)) mod 256], postamble.  The bytearray allocated with
    [length + 8] bytes ends up with [length + 7]: the slice assignment
    [frame[5:-2] = data] replaces [length + 1] bytes by [length]. *)
Theorem encode_frame_shape (data : list Z) :
  1 < Py.len data < 255 ->
  encode data
  = Ok ([0x00; 0x00; 0xFF; Py.len data; (- Py.len data) mod 256]
        ++ data ++ [(- Py.sum data) mod 256; 0x00]) /\
  forall frame, encode data = Ok frame -> Py.len frame = Py.len data + 7.
Proof.
  intros Hlen. rewrite (encode_layout data Hlen). split; [reflexivity|].
  intros frame [= <-]. unfold frame_layout. solve_len.
Qed.

Lemma encode_frame_shape_witness :
  encode [0xD4; 0x52; 0x00]
  = Ok [0x00; 0x00; 0xFF; 0x03; 0xFD; 0xD4; 0x52; 0x00; 0xDA; 0x00].
Proof.
  destruct (encode_frame_shape [0xD4; 0x52; 0x00]) as [H _]; [split; reflexivity|].
  exact H.
Defined.

(** X2: for a payload of bytes the assertion is the only way the frame
    construction fails: it ends with the assertion error exactly when the
    payload has fewer than 2 or more than 254 bytes, and with no other
    error. *)
Theorem encode_fails_iff (data : list Z) :
  is_bytes data ->
  (encode data = Err InvalidPayload <-> Py.len data <= 1 \/ 255 <= Py.len data) /\
  (forall e, encode data = Err e -> e = InvalidPayload).
Proof.
  intros _. split.
  - rewrite encode_invalid_payload_iff. lia.
  - intros e Henc. destruct (decide (1 < Py.len data < 255)) as [Hlen|Hlen].
    + rewrite encode_layout in Henc by assumption. discriminate.
    + rewrite encode_rejects in Henc by assumption. congruence.
Qed.

Lemma encode_fails_iff_witness :
  encode [] = Err InvalidPayload /\ encode (replicate 255 0) = Err InvalidPayload.
Proof.
  split.
  - apply (proj1 (encode_fails_iff [] ltac:(constructor))). left. discriminate.
  - apply (proj1 (encode_fails_iff (replicate 255 0)
                    ltac:(apply Forall_replicate; unfold is_byte; lia))).
    right. discriminate.
Defined.

(** X3: a frame built from bytes consists of bytes, its length byte and
    length checksum sum to [0 mod 256], and so do its payload and payload
    checksum. *)
Theorem encode_frame_bytes (data frame : list Z) :
  is_bytes data ->
  encode data = Ok frame ->
  is_bytes frame /\
  (exists len_byte lcs, frame !! 3%nat = Some len_byte /\ frame !! 4%nat = Some lcs /\
                        Z.land (len_byte + lcs) 0xFF = 0) /\
  Z.land (Py.sum (take (length data + 1) (drop 5 frame))) 0xFF = 0.
Proof.
  intros Hbytes Henc.
  destruct (decide (1 < Py.len data < 255)) as [Hlen|Hlen];
    [|rewrite encode_rejects in Henc by assumption; discriminate].
  rewrite encode_layout in Henc by assumption. injection Henc as <-.
  unfold frame_layout. split; [|split].
  - unfold is_bytes. cbn [app]. repeat apply Forall_cons_2.
    1-3: unfold is_byte, _PREAMBLE, _STARTCODE1, _STARTCODE2; lia.
    + unfold is_byte. lia.
    + unfold is_byte. apply Z.mod_pos_bound. lia.
    + apply Forall_app. split; [exact Hbytes|].
      repeat apply Forall_cons_2; [| |apply Forall_nil_2].
      * unfold is_byte. apply Z.mod_pos_bound. lia.
      * unfold is_byte, _POSTAMBLE. lia.
  - exists (Py.len data), ((- Py.len data) mod 256). repeat split.
    rewrite land_255, Z.add_mod_idemp_r by lia.
    replace (Py.len data + - Py.len data) with 0 by lia. reflexivity.
  - set (c := (- Py.sum data) mod 256).
    change (drop 5 ([_PREAMBLE; _STARTCODE1; _STARTCODE2; Py.len data;
                     (- Py.len data) mod 256] ++ data ++ [c; _POSTAMBLE]))
      with (data ++ [c; _POSTAMBLE]).
    replace (data ++ [c; _POSTAMBLE]) with ((data ++ [c]) ++ [_POSTAMBLE])
      by (rewrite <- app_assoc; reflexivity).
    replace (length data + 1)%nat with (length (data ++ [c]))
      by (rewrite length_app; reflexivity).
    rewrite take_app_length, sum_app, land_255. subst c.
    change (Py.sum [(- Py.sum data) mod 256]) with ((- Py.sum data) mod 256 + 0).
    rewrite Z.add_0_r, Z.add_mod_idemp_r by lia.
    replace (Py.sum data + - Py.sum data) with 0 by lia. reflexivity.
Qed.

Lemma encode_frame_bytes_witness :
  is_bytes [0x00; 0x00; 0xFF; 0x02; 0xFE; 0xD4; 0x02; 0x2A; 0x00].
Proof.
  apply (encode_frame_bytes [0xD4; 0x02]).
  - unfold is_bytes. repeat constructor; discriminate.
  - reflexivity.
Defined.

(** X4: [_read_frame] refuses a frame that is shorter than the 5 header bytes
    or does not begin with [00 00 FF] as a malformed start. *)
Theorem decode_malformed_start (raw : list Z) :
  Py.len raw < 5 \/ take 3 raw <> _FRAME_START ->
  decode raw = Err MalformedStart.
Proof.
  intros Hbad. unfold decode, _read_frame, fresh_port.
  unfold bind at 1. unfold sreader_read at 1. cbn [rxbuf line trace app].
  change (Z.to_nat (Py.len _FRAME_START + 2)) with 5%nat.
  change (Py.len _FRAME_START + 2) with 5.
  assert (Hcond : (Py.len (take 5 raw) <? 5)
                  || bool_decide (Py.slice_to (take 5 raw) (-2) ≠ _FRAME_START) = true).
  { destruct (decide (Py.len raw < 5)) as [Hshort|Hlong].
    - rewrite (proj2 (Z.ltb_lt _ _)); [reflexivity|].
      unfold Py.len in *. rewrite length_take. lia.
    - destruct Hbad as [?|Hstart]; [contradiction|].
      rewrite (proj2 (Z.ltb_ge _ _)) by (unfold Py.len in *; rewrite length_take; lia).
      cbn [orb]. apply bool_decide_eq_true_2.
      unfold Py.slice_to. rewrite bound_neg by lia. rewrite length_take.
      replace (5 `min` length raw - Z.to_nat (- -2))%nat with 3%nat
        by (unfold Py.len in *; lia).
      rewrite take_take. exact Hstart. }
  rewrite Hcond. reflexivity.
Qed.

Lemma decode_malformed_start_witness :
  decode [0x00; 0xFF; 0x00; 0x02; 0xFE; 0xD5; 0x03; 0x28; 0x00] = Err MalformedStart.
Proof. apply decode_malformed_start. right. discriminate. Defined.

(** X5: when the header's length and length checksum do not sum to
    [0 mod 256], [_read_frame] fails after the one read of 5 bytes: the rest
    of the frame is not read and stays on the line. *)
Theorem read_frame_length_checksum (fl fc : Z) (body : list Z) (tr : list event) :
  Z.land (fl + fc) 0xFF <> 0 ->
  _read_frame (mkUart [] (_FRAME_START ++ [fl; fc] ++ body) tr)
  = (Err LengthChecksumMismatch,
     mkUart [] body (tr ++ [StreamRead 5 (_FRAME_START ++ [fl; fc])])).
Proof.
  intros Hsum. rewrite read_frame_run. cbv zeta.
  destruct (Z.eqb_spec (Z.land (fl + fc) 255) 0); [contradiction|reflexivity].
Qed.

Lemma read_frame_length_checksum_witness :
  _read_frame (mkUart [] (_ACK ++ [0x01; 0x02]) [])
  = (Err LengthChecksumMismatch,
     mkUart [] [0x00; 0x01; 0x02] [StreamRead 5 [0x00; 0x00; 0xFF; 0x00; 0xFF]]).
Proof. apply (read_frame_length_checksum 0x00 0xFF [0x00; 0x01; 0x02] []). discriminate. Defined.

(** X6: when a valid header arrives and the device delivers nothing after it,
    the checksum of the empty data is 0 and [data[-1]] raises [IndexError]:
    [_read_frame] ends with an error that is none of its own. *)
Theorem decode_header_only (fl fc : Z) :
  Z.land (fl + fc) 0xFF = 0 ->
  decode (_FRAME_START ++ [fl; fc]) = Err IndexError.
Proof.
  intros Hsum.
  change (_FRAME_START ++ [fl; fc]) with (_FRAME_START ++ [fl; fc] ++ []).
  rewrite decode_run. cbv zeta. rewrite Hsum, take_nil. reflexivity.
Qed.

Lemma decode_header_only_witness :
  decode [0x00; 0x00; 0xFF; 0x02; 0xFE] = Err IndexError.
Proof. apply (decode_header_only 0x02 0xFE). reflexivity. Defined.

(** X7: replacing the length checksum of a well-formed frame by any other
    byte makes [_read_frame] fail with the length-checksum error, and
    replacing the payload checksum by any other byte makes it fail with the
    payload-checksum error. *)
Theorem decode_checksum_corrupted (data : list Z) (c : Z) :
  Py.len data < 256 ->
  is_byte c ->
  (c <> (- Py.len data) mod 256 ->
   decode ([0x00; 0x00; 0xFF; Py.len data; c]
           ++ data ++ [(- Py.sum data) mod 256; 0x00])
   = Err LengthChecksumMismatch) /\
  (c <> (- Py.sum data) mod 256 ->
   decode ([0x00; 0x00; 0xFF; Py.len data; (- Py.len data) mod 256]
           ++ data ++ [c; 0x00])
   = Err PayloadChecksumMismatch).
Proof.
  intros Hlen [Hc0 Hc256]. pose proof (len_nonneg data) as Hpos. split; intros Hne.
  - change ([0; 0; 255; Py.len data; c] ++ data ++ [(- Py.sum data) mod 256; 0])
      with (_FRAME_START ++ [Py.len data; c] ++ (data ++ [(- Py.sum data) mod 256; 0])).
    rewrite decode_run. cbv zeta. rewrite land_255.
    destruct (Z.eqb_spec ((Py.len data + c) mod 256) 0) as [Hz|_]; [|reflexivity].
    exfalso. apply Hne. revert Hz. Z.to_euclidean_division_equations. lia.
  - change ([0; 0; 255; Py.len data; (- Py.len data) mod 256] ++ data ++ [c; 0])
      with (_FRAME_START ++ [Py.len data; (- Py.len data) mod 256] ++ (data ++ [c; 0])).
    rewrite decode_run. cbv zeta. rewrite !land_255.
    rewrite Z.add_mod_idemp_r by lia. replace (Py.len data + - Py.len data) with 0 by lia.
    change (negb (0 mod 256 =? 0)) with false. cbv iota.
    rewrite take_ge by (rewrite length_app; simpl; unfold Py.len; lia).
    rewrite sum_app. change (Py.sum [c; 0]) with (c + (0 + 0)).
    destruct (Z.eqb_spec ((Py.sum data + (c + (0 + 0))) mod 256) 0) as [Hz|_]; [|reflexivity].
    exfalso. apply Hne. revert Hz. Z.to_euclidean_division_equations. lia.
Qed.

Lemma decode_checksum_corrupted_witness :
  decode [0x00; 0x00; 0xFF; 0x02; 0xFF; 0xD5; 0x03; 0x28; 0x00] = Err LengthChecksumMismatch.
Proof.
  apply (proj1 (decode_checksum_corrupted [0xD5; 0x03] 0xFF ltac:(reflexivity)
                  ltac:(unfold is_byte; lia))).
  discriminate.
Defined.

(** X8: changing one payload byte of a well-formed frame into another byte
    makes [_read_frame] fail with the payload-checksum error. *)
Theorem decode_payload_corrupted (pre post : list Z) (b b' : Z) :
  Py.len (pre ++ b :: post) < 256 ->
  is_byte b -> is_byte b' -> b <> b' ->
  decode ([0x00; 0x00; 0xFF; Py.len (pre ++ b :: post); (- Py.len (pre ++ b :: post)) mod 256]
          ++ (pre ++ b' :: post) ++ [(- Py.sum (pre ++ b :: post)) mod 256; 0x00])
  = Err PayloadChecksumMismatch.
Proof.
  intros Hlen [Hb0 Hb256] [Hb'0 Hb'256] Hne.
  set (n := Py.len (pre ++ b :: post)) in *.
  set (c := (- Py.sum (pre ++ b :: post)) mod 256).
  assert (Hn : Py.len (pre ++ b' :: post) = n) by (unfold n; solve_len).
  pose proof (len_nonneg (pre ++ b' :: post)) as Hpos.
  change ([0; 0; 255; n; (- n) mod 256] ++ (pre ++ b' :: post) ++ [c; 0])
    with (_FRAME_START ++ [n; (- n) mod 256] ++ ((pre ++ b' :: post) ++ [c; 0])).
  rewrite decode_run. cbv zeta. rewrite !land_255.
  rewrite Z.add_mod_idemp_r by lia. replace (n + - n) with 0 by lia.
  change (negb (0 mod 256 =? 0)) with false. cbv iota.
  rewrite take_ge by (rewrite length_app; simpl; unfold Py.len in *; lia).
  rewrite !sum_app. change (Py.sum [c; 0]) with (c + (0 + 0)).
  change (Py.sum (b' :: post)) with (b' + Py.sum post).
  destruct (Z.eqb_spec ((Py.sum pre + (b' + Py.sum post) + (c + (0 + 0))) mod 256) 0)
    as [Hz|_]; [|reflexivity].
  exfalso. apply Hne. revert Hz. unfold c. rewrite sum_app.
  change (Py.sum (b :: post)) with (b + Py.sum post).
  Z.to_euclidean_division_equations. lia.
Qed.

Lemma decode_payload_corrupted_witness :
  decode [0x00; 0x00; 0xFF; 0x02; 0xFE; 0xD5; 0x04; 0x28; 0x00] = Err PayloadChecksumMismatch.
Proof.
  apply (decode_payload_corrupted [0xD5] [] 0x03 0x04);
    first [reflexivity | unfold is_byte; lia | discriminate].
Defined.

(** ** Further properties of the transport session *)

(** X9: when the assertion on the payload fails, [_write_frame] has not
    touched the port: no wake-up is written, nothing is discarded, nothing is
    read. *)
Theorem write_frame_rejected_untouched (data : list Z) (u : Uart) :
  Py.len data <= 1 \/ 255 <= Py.len data ->
  _write_frame data u = (Err InvalidPayload, u).
Proof.
  intros Hlen. unfold _write_frame, bind, lift.
  rewrite encode_rejects by lia. reflexivity.
Qed.

Lemma write_frame_rejected_untouched_witness :
  _write_frame [0xD4] (mkUart [0x01] _ACK []) = (Err InvalidPayload, mkUart [0x01] _ACK []).
Proof. apply write_frame_rejected_untouched. left. discriminate. Defined.

(** X10: for a payload the assertion accepts, [_write_frame] succeeds exactly
    when the first six bytes the device delivers are the acknowledgement, and
    fails with the acknowledgement error otherwise; either way the receive
    buffer is left empty and exactly those six bytes (or the fewer there
    were) are taken from the line. *)
Theorem write_frame_acknowledged (data : list Z) (u : Uart) :
  1 < Py.len data < 255 ->
  (take 6 (line u) = _ACK -> fst (_write_frame data u) = Ok tt) /\
  (take 6 (line u) <> _ACK -> fst (_write_frame data u) = Err AckMismatch) /\
  rxbuf (snd (_write_frame data u)) = [] /\
  line (snd (_write_frame data u)) = drop 6 (line u).
Proof.
  intros Hlen. rewrite (write_frame_run data _ u (encode_layout data Hlen)).
  cbn [fst snd]. repeat split.
  - intros Hack. rewrite bool_decide_eq_false_2; [reflexivity|]. intros H. exact (H Hack).
  - intros Hack. rewrite bool_decide_eq_true_2 by assumption. reflexivity.
Qed.

Lemma write_frame_acknowledged_witness :
  fst (_write_frame [0xD4; 0x02] (mkUart [0x09; 0x09] (_ACK ++ [0x00; 0x00]) [])) = Ok tt.
Proof.
  apply (write_frame_acknowledged [0xD4; 0x02]); [split; reflexivity | reflexivity].
Defined.

(** X11: what [_write_frame] does on the port, in order: it writes the
    wake-up sequence, discards in one read everything that was buffered (and
    does no read when nothing was), writes the frame, and reads six bytes. *)
Theorem write_frame_trace (data : list Z) (u : Uart) :
  1 < Py.len data < 255 ->
  trace (snd (_write_frame data u))
  = trace u
    ++ [Written _WAKEUP]
    ++ match rxbuf u with [] => [] | _ :: _ => [Discarded (rxbuf u)] end
    ++ [Written ([0x00; 0x00; 0xFF; Py.len data; (- Py.len data) mod 256]
                 ++ data ++ [(- Py.sum data) mod 256; 0x00]);
        StreamRead 6 (take 6 (line u))].
Proof.
  intros Hlen. rewrite (write_frame_run data _ u (encode_layout data Hlen)).
  cbn [snd]. unfold port_after_write, flushed, log.
  destruct u as [[|b rx] ln tr]; cbn [rxbuf line trace];
    rewrite <- !app_assoc; reflexivity.
Qed.

Lemma write_frame_trace_witness :
  trace (snd (_write_frame [0xD4; 0x02] (mkUart [0x09; 0x09] _ACK [])))
  = [Written _WAKEUP; Discarded [0x09; 0x09];
     Written [0x00; 0x00; 0xFF; 0x02; 0xFE; 0xD4; 0x02; 0x2A; 0x00];
     StreamRead 6 _ACK].
Proof.
  rewrite (write_frame_trace [0xD4; 0x02]); [reflexivity | split; reflexivity].
Defined.

(** ** The result of an exchange depends on the device's bytes only *)

Section Agree.

Lemma agree_ret {A} R (a : A) : agree R R (ret a).
Proof. intros u u' HR. split; [reflexivity | intros; exact HR]. Qed.

Lemma agree_raise {A} R Q e : agree R Q (@raise A e).
Proof. intros u u' HR. split; [reflexivity | discriminate]. Qed.

Lemma agree_lift {A} R (r : result A) : agree R R (lift r).
Proof. intros u u' HR. split; [reflexivity | intros; exact HR]. Qed.

Lemma agree_bind {A B} R Q S (m : M A) (k : A -> M B) :
  agree R Q m -> (forall a, agree Q S (k a)) -> agree R S (bind m k).
Proof.
  intros Hm Hk u u' HR. destruct (Hm u u' HR) as [Hres Hpost]. unfold bind.
  destruct (m u) as [[a|e] u1], (m u') as [[a'|e'] u1']; cbn [fst snd] in *;
    try discriminate.
  - injection Hres as <-. apply Hk. apply (Hpost a). reflexivity.
  - injection Hres as <-. split; [reflexivity | discriminate].
Qed.

Lemma agree_if {A} R Q (b : bool) (m1 m2 : M A) :
  agree R Q m1 -> agree R Q m2 -> agree R Q (if b then m1 else m2).
Proof. destruct b; auto. Qed.

Lemma agree_sreader_read n : agree same_wire same_wire (sreader_read n).
Proof.
  intros [rx ln tr] [rx' ln' tr'] [Hrx Hln]. cbn [rxbuf line] in *. subst rx' ln'.
  split; [reflexivity|]. intros _ _. split; reflexivity.
Qed.

Lemma agree_getitem R l i : agree R R (lift (Py.getitem l i)).
Proof. apply agree_lift. Qed.

Lemma agree_read_frame : agree same_wire same_wire _read_frame.
Proof.
  unfold _read_frame.
  eapply agree_bind; [apply agree_sreader_read|]. intros response.
  apply agree_if; [apply agree_raise|].
  eapply agree_bind; [apply agree_getitem|]. intros frame_len.
  eapply agree_bind; [apply agree_getitem|]. intros frame_checksum.
  apply agree_if; [apply agree_raise|].
  eapply agree_bind; [apply agree_sreader_read|]. intros data.
  apply agree_if; [apply agree_raise|].
  eapply agree_bind; [apply agree_getitem|]. intros frame_end.
  apply agree_if; [apply agree_raise | apply agree_ret].
Qed.

Lemma agree_write_frame data : agree same_line same_wire (_write_frame data).
Proof.
  intros u u' Hline. unfold same_line in Hline.
  destruct (encode data) as [frame|e] eqn:Henc.
  - rewrite !(write_frame_run data frame _ Henc), Hline. cbn [fst snd].
    split; [reflexivity|]. intros _ _. split; cbn; [reflexivity|]. rewrite Hline. reflexivity.
  - unfold _write_frame, bind, lift. rewrite Henc. cbn [fst].
    split; [reflexivity | discriminate].
Qed.

Lemma agree_call_function command params :
  agree same_line same_wire (call_function command params).
Proof.
  unfold call_function.
  eapply agree_bind; [apply agree_lift|]. intros data.
  eapply agree_bind; [apply agree_write_frame|]. intros _.
  eapply agree_bind; [apply agree_read_frame|]. intros response.
  apply agree_if; [apply agree_raise|].
  eapply agree_bind; [apply agree_getitem|]. intros marker.
  eapply agree_bind; [apply agree_getitem|]. intros code.
  apply agree_if; [apply agree_raise | apply agree_ret].
Qed.

End Agree.

(** X12: bytes left in the receive buffer by an earlier exchange have no
    part in the next one: the result of [call_function] is the same on any
    two ports that are to receive the same bytes from the device, whatever
    is buffered on them and whatever was done on them before. *)
Theorem call_function_ignores_stale (command : Z) (params : list Z) (u u' : Uart) :
  line u = line u' ->
  fst (call_function command params u) = fst (call_function command params u').
Proof. intros Hline. apply (agree_call_function command params u u' Hline). Qed.

Lemma call_function_ignores_stale_witness :
  fst (call_function _COMMAND_GETFIRMWAREVERSION []
         (mkUart [0xD5; 0x4B; 0x01]
                 (_ACK ++ [0; 0; 255; 6; 250; 0xD5; 0x03; 0x32; 0x01; 0x06; 0x07; 0xE8; 0]) []))
  = Ok [0x32; 0x01; 0x06; 0x07].
Proof.
  rewrite (call_function_ignores_stale _ _ _
             (fresh_port (_ACK ++ [0; 0; 255; 6; 250; 0xD5; 0x03; 0x32; 0x01; 0x06; 0x07; 0xE8; 0])));
    reflexivity.
Defined.

Lemma agree_SAM_configuration : agree same_line same_wire SAM_configuration.
Proof.
  unfold SAM_configuration.
  eapply agree_bind; [apply agree_call_function|]. intros _. apply agree_ret.
Qed.

Lemma agree_read_passive_target card_baud :
  agree same_line same_wire (read_passive_target card_baud).
Proof.
  unfold read_passive_target.
  eapply agree_bind; [apply agree_call_function|]. intros response.
  eapply agree_bind; [apply agree_getitem|]. intros count.
  apply agree_if; [apply agree_raise|].
  eapply agree_bind; [apply agree_getitem|]. intros uid_len.
  apply agree_if; [apply agree_raise|].
  eapply agree_bind; [apply agree_getitem|]. intros uid_len'.
  apply agree_ret.
Qed.

Lemma agree_release_targets : agree same_line same_wire release_targets.
Proof.
  unfold release_targets.
  eapply agree_bind; [apply agree_call_function|]. intros _. apply agree_ret.
Qed.

(** X13: the same holds for the four device operations: what they return or
    raise depends only on the bytes the device delivers after the call. *)
Theorem operations_ignore_stale (card_baud : Z) (u u' : Uart) :
  line u = line u' ->
  fst (SAM_configuration u) = fst (SAM_configuration u') /\
  fst (get_firmware_version u) = fst (get_firmware_version u') /\
  fst (read_passive_target card_baud u) = fst (read_passive_target card_baud u') /\
  fst (release_targets u) = fst (release_targets u').
Proof.
  intros Hline. repeat split.
  - apply (agree_SAM_configuration u u' Hline).
  - rewrite !get_firmware_version_call. apply (agree_call_function _ _ u u' Hline).
  - apply (agree_read_passive_target card_baud u u' Hline).
  - apply (agree_release_targets u u' Hline).
Qed.

Lemma operations_ignore_stale_witness :
  fst (release_targets
         (mkUart [0x00; 0x00; 0xFF; 0x0C; 0xF4; 0xD5; 0x4B]
                 (_ACK ++ [0x00; 0x00; 0xFF; 0x03; 0xFD; 0xD5; 0x53; 0x00; 0xD8; 0x00]) []))
  = Ok tt.
Proof.
  destruct (operations_ignore_stale _MIFARE_ISO14443A
              (mkUart [0x00; 0x00; 0xFF; 0x0C; 0xF4; 0xD5; 0x4B]
                 (_ACK ++ [0x00; 0x00; 0xFF; 0x03; 0xFD; 0xD5; 0x53; 0x00; 0xD8; 0x00]) [])
              (fresh_port (_ACK ++ [0x00; 0x00; 0xFF; 0x03; 0xFD; 0xD5; 0x53; 0x00; 0xD8; 0x00]))
              eq_refl) as (_ & _ & _ & H).
  rewrite H. reflexivity.
Defined.

(** ** What an exchange writes *)

Lemma writes_app t1 t2 : writes (t1 ++ t2) = writes t1 ++ writes t2.
Proof.
  induction t1 as [|[buf|buf|n got] t1 IH]; cbn [app writes]; rewrite ?IH; reflexivity.
Qed.

Lemma writes_after_write frame u :
  writes (trace (port_after_write frame u)) = writes (trace u) ++ [_WAKEUP; frame].
Proof.
  unfold port_after_write, flushed, log.
  destruct u as [[|b rx] ln tr]; cbn [rxbuf line trace];
    rewrite !writes_app; cbn [writes]; rewrite ?app_nil_r, <- ?app_assoc; reflexivity.
Qed.

Lemma keeps_writes_ret {A} (a : A) : keeps_writes (ret a).
Proof. intros u. reflexivity. Qed.

Lemma keeps_writes_raise {A} e : keeps_writes (@raise A e).
Proof. intros u. reflexivity. Qed.

Lemma keeps_writes_lift {A} (r : result A) : keeps_writes (lift r).
Proof. intros u. reflexivity. Qed.

Lemma keeps_writes_bind {A B} (m : M A) (k : A -> M B) :
  keeps_writes m -> (forall a, keeps_writes (k a)) -> keeps_writes (bind m k).
Proof.
  intros Hm Hk u. unfold bind. specialize (Hm u).
  destruct (m u) as [[a|e] u1]; cbn [snd] in *.
  - rewrite Hk. exact Hm.
  - exact Hm.
Qed.

Lemma keeps_writes_if {A} (b : bool) (m1 m2 : M A) :
  keeps_writes m1 -> keeps_writes m2 -> keeps_writes (if b then m1 else m2).
Proof. destruct b; auto. Qed.

Lemma keeps_writes_sreader_read n : keeps_writes (sreader_read n).
Proof.
  intros u. unfold sreader_read, log. cbn [snd trace].
  rewrite writes_app. cbn [writes]. apply app_nil_r.
Qed.

Lemma keeps_writes_read_frame : keeps_writes _read_frame.
Proof.
  unfold _read_frame.
  apply keeps_writes_bind; [apply keeps_writes_sreader_read|]. intros response.
  apply keeps_writes_if; [apply keeps_writes_raise|].
  apply keeps_writes_bind; [apply keeps_writes_lift|]. intros frame_len.
  apply keeps_writes_bind; [apply keeps_writes_lift|]. intros frame_checksum.
  apply keeps_writes_if; [apply keeps_writes_raise|].
  apply keeps_writes_bind; [apply keeps_writes_sreader_read|]. intros data.
  apply keeps_writes_if; [apply keeps_writes_raise|].
  apply keeps_writes_bind; [apply keeps_writes_lift|]. intros frame_end.
  apply keeps_writes_if; [apply keeps_writes_raise | apply keeps_writes_ret].
Qed.

(** X14: whatever the device answers, [call_function] with byte arguments
    (fewer than 253) writes exactly two things: the wake-up sequence and then
    the one frame carrying [D4], the command code masked to a byte, and the
    arguments. *)
Theorem call_function_writes (command : Z) (params : list Z) (u : Uart) :
  is_bytes params ->
  Py.len params < 253 ->
  writes (trace (snd (call_function command params u)))
  = writes (trace u)
    ++ [_WAKEUP;
        [0x00; 0x00; 0xFF; 2 + Py.len params; (- (2 + Py.len params)) mod 256]
        ++ (0xD4 :: Z.land command 0xFF :: params)
        ++ [(- (0xD4 + (Z.land command 0xFF + Py.sum params))) mod 256; 0x00]].
Proof.
  intros Hb Hlen. pose proof (len_nonneg params) as Hpos.
  set (data := _HOSTTOPN532 :: Z.land command 0xFF :: params).
  assert (Henc : encode data = Ok (frame_layout data))
    by (apply encode_layout; unfold data; solve_len).
  assert (Hframe : frame_layout data
                   = [0x00; 0x00; 0xFF; 2 + Py.len params; (- (2 + Py.len params)) mod 256]
                     ++ (0xD4 :: Z.land command 0xFF :: params)
                     ++ [(- (0xD4 + (Z.land command 0xFF + Py.sum params))) mod 256; 0x00]).
  { unfold frame_layout. replace (Py.len data) with (2 + Py.len params)
      by (unfold data; solve_len). reflexivity. }
  rewrite <- Hframe.
  unfold call_function. unfold bind at 1. unfold lift at 1.
  rewrite command_payload_bytes by assumption. fold data.
  unfold bind at 1. rewrite (write_frame_run data _ u Henc).
  destruct (bool_decide (take 6 (line u) ≠ _ACK)); cbn [snd].
  - apply writes_after_write.
  - rewrite <- writes_after_write.
    apply (keeps_writes_bind _read_frame); [apply keeps_writes_read_frame|].
    intros response.
    apply keeps_writes_if; [apply keeps_writes_raise|].
    apply keeps_writes_bind; [apply keeps_writes_lift|]. intros marker.
    apply keeps_writes_bind; [apply keeps_writes_lift|]. intros code.
    apply keeps_writes_if; [apply keeps_writes_raise | apply keeps_writes_ret].
Qed.

Lemma call_function_writes_witness :
  writes (trace (snd (call_function _COMMAND_SAMCONFIGURATION [0x01; 0x14; 0x01]
                        (fresh_port []))))
  = [_WAKEUP; [0x00; 0x00; 0xFF; 0x05; 0xFB; 0xD4; 0x14; 0x01; 0x14; 0x01; 0x02; 0x00]].
Proof.
  rewrite (call_function_writes _COMMAND_SAMCONFIGURATION [0x01; 0x14; 0x01]).
  - reflexivity.
  - unfold is_bytes. repeat constructor; discriminate.
  - reflexivity.
Defined.

(** ** Further properties of the dispatcher *)

(** X15: with byte arguments the command payload is [D4], the command code
    masked to its low byte, and the arguments in order. *)
Theorem command_payload_layout (command : Z) (params : list Z) :
  is_bytes params ->
  command_payload command params = Ok (0xD4 :: command mod 256 :: params) /\
  is_bytes (0xD4 :: command mod 256 :: params).
Proof.
  intros Hb. rewrite command_payload_bytes by assumption. rewrite land_255.
  split; [reflexivity|].
  unfold is_bytes. repeat apply Forall_cons_2; [| |exact Hb].
  - unfold is_byte. lia.
  - unfold is_byte. apply Z.mod_pos_bound. lia.
Qed.

Lemma command_payload_layout_witness :
  command_payload 0x14A [0x01; 0x00] = Ok [0xD4; 0x4A; 0x01; 0x00].
Proof.
  apply (proj1 (command_payload_layout 0x14A [0x01; 0x00]
                  ltac:(unfold is_bytes; repeat constructor; discriminate))).
Defined.

(** X16: with 253 or more byte arguments the payload has more than 254 bytes
    and [call_function] ends with the assertion error before anything is
    done on the port. *)
Theorem call_function_too_many_params (command : Z) (params : list Z) (u : Uart) :
  is_bytes params ->
  253 <= Py.len params ->
  call_function command params u = (Err InvalidPayload, u).
Proof.
  intros Hb Hlen. unfold call_function. unfold bind at 1. unfold lift at 1.
  rewrite command_payload_bytes by assumption.
  unfold bind at 1. unfold _write_frame. unfold bind at 1. unfold lift at 1.
  rewrite encode_rejects by solve_len. reflexivity.
Qed.

Lemma call_function_too_many_params_witness :
  call_function _COMMAND_INRELEASE (replicate 253 0) (fresh_port _ACK)
  = (Err InvalidPayload, fresh_port _ACK).
Proof.
  apply call_function_too_many_params; [|discriminate].
  unfold is_bytes. apply Forall_replicate. unfold is_byte. lia.
Defined.

(** X17: a whole exchange.  When the device delivers the acknowledgement and
    then a well-formed frame whose payload is [D5], [command + 1] and the
    arguments [arguments], [call_function] returns [arguments]; the bytes the
    device delivers after that frame stay unread on the line, and the receive
    buffer is empty. *)
Theorem call_function_exchange_ok (command : Z) (params arguments rest : list Z) (u : Uart) :
  is_bytes params ->
  Py.len params < 253 ->
  Py.len arguments < 254 ->
  line u = _ACK ++ frame_layout (_PN532TOHOST :: command + 1 :: arguments) ++ rest ->
  exists u',
    call_function command params u = (Ok arguments, u') /\
    rxbuf u' = [] /\ line u' = rest.
Proof.
  intros Hb Hparams Hargs Hline.
  destruct (call_function_exchange command params
              (_PN532TOHOST :: command + 1 :: arguments) rest u Hb Hparams)
    as (u' & Hrx & Hln & Hcall); [solve_len | exact Hline |].
  exists u'. rewrite !Z.eqb_refl in Hcall. auto.
Qed.

Lemma call_function_exchange_ok_witness :
  fst (call_function _COMMAND_SAMCONFIGURATION [0x01; 0x14; 0x01]
         (fresh_port (_ACK ++ [0x00; 0x00; 0xFF; 0x02; 0xFE; 0xD5; 0x15; 0x16; 0x00])))
  = Ok [].
Proof.
  destruct (call_function_exchange_ok _COMMAND_SAMCONFIGURATION [0x01; 0x14; 0x01] [] []
              (fresh_port (_ACK ++ [0x00; 0x00; 0xFF; 0x02; 0xFE; 0xD5; 0x15; 0x16; 0x00])))
    as (u' & Hcall & _).
  - unfold is_bytes. repeat constructor; discriminate.
  - reflexivity.
  - reflexivity.
  - reflexivity.
  - rewrite Hcall. reflexivity.
Defined.

(** X18: the command code is masked to a byte when it is sent but compared
    unmasked, plus one, with the response.  For a command code whose
    successor is not a byte (255, or any code of 256 and more) no response
    made of bytes matches: the exchange never succeeds. *)
Theorem call_function_unmasked_command (command : Z) (params data : list Z)
    (u u1 u2 : Uart) (response : list Z) :
  command_payload command params = Ok data ->
  _write_frame data u = (Ok tt, u1) ->
  _read_frame u1 = (Ok response, u2) ->
  is_bytes response ->
  ~ is_byte (command + 1) ->
  call_function command params u = (Err TruncatedResponse, u2) \/
  call_function command params u = (Err UnexpectedResponse, u2).
Proof.
  intros Hpay Hwrite Hread Hbytes Hcmd.
  rewrite (call_function_run _ _ _ _ _ _ _ Hpay Hwrite Hread).
  destruct response as [|marker [|code arguments]]; [left; reflexivity | left; reflexivity |].
  right. apply Forall_cons in Hbytes as [_ Hbytes]. apply Forall_cons in Hbytes as [Hcode _].
  destruct (Z.eqb_spec code (command + 1)) as [->|_]; [contradiction|].
  rewrite andb_false_r. reflexivity.
Qed.

Lemma call_function_unmasked_command_witness :
  fst (call_function 0xFF []
         (fresh_port (_ACK ++ [0x00; 0x00; 0xFF; 0x02; 0xFE; 0xD5; 0x00; 0x2B; 0x00])))
  = Err UnexpectedResponse.
Proof.
  set (u := fresh_port _).
  destruct (call_function_unmasked_command 0xFF [] [0xD4; 0xFF] u
              (snd (_write_frame [0xD4; 0xFF] u))
              (snd (_read_frame (snd (_write_frame [0xD4; 0xFF] u))))
              [0xD5; 0x00] eq_refl eq_refl eq_refl) as [H|H].
  - unfold is_bytes. repeat constructor; discriminate.
  - unfold is_byte. lia.
  - rewrite H. discriminate.
  - rewrite H. reflexivity.
Defined.

(** X19: what [call_function] can raise: the assertion error, a refused
    byte value, the acknowledgement error, the five errors of [_read_frame]
    and the two of the response check.  It raises none of the errors of the
    device operations. *)
Theorem call_function_errors (command : Z) (params : list Z) (u : Uart) (e : exn) :
  fst (call_function command params u) = Err e ->
  In e [InvalidPayload; ValueError; AckMismatch; MalformedStart;
        LengthChecksumMismatch; PayloadChecksumMismatch; IndexError;
        MissingFrameEnd; TruncatedResponse; UnexpectedResponse].
Proof.
  set (E := fun e : exn =>
              In e [InvalidPayload; ValueError; AckMismatch; MalformedStart;
                    LengthChecksumMismatch; PayloadChecksumMismatch; IndexError;
                    MissingFrameEnd; TruncatedResponse; UnexpectedResponse]).
  change (fst (call_function command params u) = Err e -> E e).
  assert (Hin : forall x, In x [InvalidPayload; ValueError; AckMismatch; MalformedStart;
                    LengthChecksumMismatch; PayloadChecksumMismatch; IndexError;
                    MissingFrameEnd; TruncatedResponse; UnexpectedResponse] -> E x)
    by (intros x Hx; exact Hx).
  unfold call_function. unfold bind at 1. unfold lift at 1.
  destruct (command_payload command params) as [data|e'] eqn:Hpay.
  2:{ intros [= <-]. apply command_payload_err in Hpay as [-> | ->];
        apply Hin; (simpl; tauto). }
  unfold bind at 1.
  destruct (encode data) as [frame|e'] eqn:Henc.
  2:{ unfold _write_frame, bind, lift. rewrite Henc. intros [= <-].
      destruct (decide (1 < Py.len data < 255)) as [Hlen|Hlen].
      - rewrite encode_layout in Henc by assumption. discriminate.
      - rewrite encode_rejects in Henc by assumption. injection Henc as <-.
        apply Hin. (simpl; tauto). }
  rewrite (write_frame_run data frame u Henc).
  destruct (bool_decide (take 6 (line u) ≠ _ACK)).
  { intros [= <-]. apply Hin. (simpl; tauto). }
  revert e. apply (only_raises_bind E _read_frame).
  { apply only_raises_read_frame; apply Hin; (simpl; tauto). }
  intros response.
  apply only_raises_if; [apply only_raises_raise, Hin; (simpl; tauto)|].
  apply only_raises_bind; [apply only_raises_getitem, Hin; (simpl; tauto)|]. intros marker.
  apply only_raises_bind; [apply only_raises_getitem, Hin; (simpl; tauto)|]. intros code.
  apply only_raises_if; [apply only_raises_raise, Hin; (simpl; tauto) | apply only_raises_ret].
Qed.

Lemma call_function_errors_witness :
  In MalformedStart [InvalidPayload; ValueError; AckMismatch; MalformedStart;
                     LengthChecksumMismatch; PayloadChecksumMismatch; IndexError;
                     MissingFrameEnd; TruncatedResponse; UnexpectedResponse].
Proof.
  apply (call_function_errors _COMMAND_INRELEASE [0x00] (fresh_port (_ACK ++ [0x00; 0x01]))).
  reflexivity.
Defined.

(** ** Whole exchanges of the device operations *)

(** X20: [read_passive_target] end to end.  When the device acknowledges and
    answers command [4A] with one target whose UID has at most 7 bytes (the
    target number, SENS_RES and SEL_RES bytes are whatever they are, and
    further bytes may follow the UID in the response), the operation returns
    that UID. *)
Theorem read_passive_target_exchange (card_baud tg sens1 sens2 sel : Z)
    (uid extra rest : list Z) (u : Uart) :
  is_byte card_baud ->
  Py.len uid <= 7 ->
  8 + Py.len uid + Py.len extra < 256 ->
  line u = _ACK
           ++ frame_layout ([0xD5; 0x4B; 0x01; tg; sens1; sens2; sel; Py.len uid]
                            ++ uid ++ extra)
           ++ rest ->
  fst (read_passive_target card_baud u) = Ok uid.
Proof.
  intros Hbaud Huid Hextra Hline. pose proof (len_nonneg uid) as Hpos.
  destruct (call_function_exchange _COMMAND_INLISTPASSIVETARGET [0x01; card_baud]
              ([0xD5; 0x4B; 0x01; tg; sens1; sens2; sel; Py.len uid] ++ uid ++ extra) rest u)
    as (u' & _ & _ & Hcall).
  - unfold is_bytes. repeat apply Forall_cons_2; [unfold is_byte; lia | exact Hbaud | constructor].
  - reflexivity.
  - solve_len.
  - exact Hline.
  - cbn [app] in Hcall. change (213 =? _PN532TOHOST) with true in Hcall.
    change (75 =? _COMMAND_INLISTPASSIVETARGET + 1) with true in Hcall.
    cbn [andb] in Hcall.
    rewrite (read_passive_target_run _ _ _ _ Hcall). cbn [fst].
    rewrite (getitem_nonneg _ 0 1) by (lia || reflexivity).
    cbn [Z.eqb Pos.eqb negb].
    rewrite (getitem_nonneg _ 5 (Py.len uid)) by (lia || reflexivity).
    rewrite (proj2 (Z.ltb_ge _ _)) by lia.
    rewrite slice_nonneg by lia.
    change (drop (Z.to_nat 6)
              (1 :: tg :: sens1 :: sens2 :: sel :: Py.len uid :: uid ++ extra))
      with (uid ++ extra).
    replace (Z.to_nat (Py.len uid)) with (length uid) by solve_len.
    rewrite take_app_length. reflexivity.
Qed.

Lemma read_passive_target_exchange_witness :
  fst (read_passive_target _MIFARE_ISO14443A
         (fresh_port (_ACK ++ [0x00; 0x00; 0xFF; 0x0C; 0xF4; 0xD5; 0x4B; 0x01; 0x01; 0x00;
                               0x04; 0x08; 0x04; 0xAA; 0xBB; 0xCC; 0xDD; 0xC0; 0x00])))
  = Ok [0xAA; 0xBB; 0xCC; 0xDD].
Proof.
  apply (read_passive_target_exchange _MIFARE_ISO14443A 0x01 0x00 0x04 0x08
           [0xAA; 0xBB; 0xCC; 0xDD] [] []).
  - unfold is_byte, _MIFARE_ISO14443A. lia.
  - discriminate.
  - reflexivity.
  - reflexivity.
Defined.

(** X21: the other three operations end to end.  When the device
    acknowledges and answers with a well-formed frame for the command
    ([D5], the command code plus one, then any content),
    [get_firmware_version] returns the content as the tuple, and
    [SAM_configuration] and [release_targets] return normally, whatever the
    content. *)
Theorem operations_exchange (content rest : list Z) (u : Uart) :
  Py.len content < 254 ->
  (line u = _ACK ++ frame_layout (0xD5 :: 0x03 :: content) ++ rest ->
   fst (get_firmware_version u) = Ok content) /\
  (line u = _ACK ++ frame_layout (0xD5 :: 0x15 :: content) ++ rest ->
   fst (SAM_configuration u) = Ok tt) /\
  (line u = _ACK ++ frame_layout (0xD5 :: 0x53 :: content) ++ rest ->
   fst (release_targets u) = Ok tt).
Proof.
  intros Hlen. split; [|split]; intros Hline.
  - rewrite get_firmware_version_call.
    destruct (call_function_exchange _COMMAND_GETFIRMWAREVERSION []
                (0xD5 :: 0x03 :: content) rest u) as (u' & _ & _ & Hcall);
      [constructor | reflexivity | solve_len | exact Hline |].
    rewrite Hcall. reflexivity.
  - unfold SAM_configuration, bind.
    destruct (call_function_exchange _COMMAND_SAMCONFIGURATION [0x01; 0x14; 0x01]
                (0xD5 :: 0x15 :: content) rest u) as (u' & _ & _ & Hcall);
      [unfold is_bytes; repeat constructor; discriminate
      | reflexivity | solve_len | exact Hline |].
    rewrite Hcall. reflexivity.
  - unfold release_targets, bind.
    destruct (call_function_exchange _COMMAND_INRELEASE [0x00]
                (0xD5 :: 0x53 :: content) rest u) as (u' & _ & _ & Hcall);
      [unfold is_bytes; repeat constructor; discriminate
      | reflexivity | solve_len | exact Hline |].
    rewrite Hcall. reflexivity.
Qed.

Lemma operations_exchange_witness :
  fst (get_firmware_version
         (fresh_port (_ACK ++ [0x00; 0x00; 0xFF; 0x06; 0xFA; 0xD5; 0x03; 0x32; 0x01; 0x06;
                               0x07; 0xE8; 0x00])))
  = Ok [0x32; 0x01; 0x06; 0x07].
Proof.
  apply (proj1 (operations_exchange [0x32; 0x01; 0x06; 0x07] []
                  (fresh_port (_ACK ++ [0x00; 0x00; 0xFF; 0x06; 0xFA; 0xD5; 0x03; 0x32; 0x01;
                                        0x06; 0x07; 0xE8; 0x00]))
                  ltac:(reflexivity))).
  reflexivity.
Defined.

(** X22: [_read_frame] on a well-formed frame with a payload of 0 to 255
    bytes (also the lengths 0, 1 and 255 that [_write_frame] refuses to
    send) returns the payload after two reads, of 5 and of [length + 2]
    bytes; whatever the device delivers after the frame stays on the line. *)
Theorem read_frame_consumes (data rest : list Z) (tr : list event) :
  Py.len data < 256 ->
  _read_frame (mkUart [] (frame_layout data ++ rest) tr)
  = (Ok data,
     mkUart [] rest
            (tr ++ [StreamRead 5 [0x00; 0x00; 0xFF; Py.len data; (- Py.len data) mod 256];
                    StreamRead (Py.len data + 2)
                               (data ++ [(- Py.sum data) mod 256; 0x00])])).
Proof.
  intros Hlen. pose proof (len_nonneg data) as Hpos.
  set (c := (- Py.sum data) mod 256).
  replace (frame_layout data ++ rest)
    with (_FRAME_START ++ [Py.len data; (- Py.len data) mod 256]
          ++ ((data ++ [c; _POSTAMBLE]) ++ rest))
    by (unfold frame_layout; fold c; cbn [app _FRAME_START]; rewrite <- !app_assoc; reflexivity).
  rewrite read_frame_run. cbv zeta.
  replace (Z.to_nat (Py.len data + 2)) with (length (data ++ [c; _POSTAMBLE]))
    by solve_len.
  rewrite take_app_length, drop_app_length.
  rewrite !land_255.
  rewrite Z.add_mod_idemp_r by lia. replace (Py.len data + - Py.len data) with 0 by lia.
  change (negb (0 mod 256 =? 0)) with false. cbv iota.
  rewrite sum_app. change (Py.sum [c; _POSTAMBLE]) with (c + (0 + 0)).
  unfold c at 1. rewrite Z.add_0_r, Z.add_mod_idemp_r by lia.
  replace (Py.sum data + - Py.sum data) with 0 by lia.
  change (negb (0 mod 256 =? 0)) with false. cbv iota.
  replace (data ++ [c; _POSTAMBLE]) with ((data ++ [c]) ++ [_POSTAMBLE])
    by (rewrite <- app_assoc; reflexivity).
  rewrite getitem_last.
  change (negb (_POSTAMBLE =? 0)) with false. cbv iota.
  rewrite slice_0 by lia.
  replace (Z.to_nat (Py.len data)) with (length data) by solve_len.
  rewrite <- !app_assoc. rewrite take_app_length.
  unfold log. cbn [rxbuf line trace]. rewrite <- app_assoc. reflexivity.
Qed.

Lemma read_frame_consumes_witness :
  _read_frame (mkUart [] [0x00; 0x00; 0xFF; 0x00; 0x00; 0x00; 0x00; 0x55] [])
  = (Ok [],
     mkUart [] [0x55]
            [StreamRead 5 [0x00; 0x00; 0xFF; 0x00; 0x00]; StreamRead 2 [0x00; 0x00]]).
Proof. apply (read_frame_consumes [] [0x55] []). reflexivity. Defined.
